(** * Doctor-appointment booking: slot generation, booking and status changes

    A shallow embedding of the parts of the application that decide the
    specification's testable properties:

    - the schema and row-level policies of the migration
      ([profiles], [doctors], [doctor_schedules], [appointments]);
    - [BookAppointment]: [fetchDoctor], the fourteen dates,
      [generateTimeSlots] and [handleBookAppointment];
    - [DoctorsList]: [fetchDoctors], the search and the specialization
      menu;
    - [PatientAppointments]: [fetchAppointments], [cancelAppointment], the
      tabs and the Cancel button;
    - [DoctorDashboard]: [fetchDashboardData], its statistics,
      [updateAppointmentStatus] and the Confirm / Cancel / Mark Complete
      buttons;
    - [App], [ProtectedRoute] and [Navbar]: the routes and the links.

    Conventions.  A JavaScript [Date] is a number of milliseconds on the
    local wall-clock time line (no daylight-saving jumps); a calendar date
    ['yyyy-MM-dd'] is its day number on that line; a [time] column is the
    text the database prints for it (['HH:MM:SS'], with up to six decimals
    when the seconds are not whole); a uuid is a string.

    The database is described in two layers.  The functions named after
    the queries say what a statement does once the database runs it, each
    policy of the migration evaluated row by row.  [under_policies] says
    what the migration's policies make of a request before that: the
    policy of [profiles] that reads [profiles] stops every statement the
    application sends while its policies are expanded (SQLSTATE 42P17).
    The application as deployed is the first layer behind the second. *)

From Stdlib Require Import ZArith List String Ascii Bool Lia.
From Equations Require Import Equations.
Import ListNotations.
Open Scope Z_scope.

Set Implicit Arguments.

(* ===================================================================== *)
(** ** Dates and times (date-fns as the application uses it)             *)
(* ===================================================================== *)

Module DateFns.

(** Milliseconds in a local day, an hour, a minute. *)
Definition msDay : Z := 86400000.
Definition msHour : Z := 3600000.
Definition msMinute : Z := 60000.

(** Day number of a [Date]; day 0 is 1970-01-01, a Thursday. *)
Definition dayNumber (d : Z) : Z := d / msDay.

(** [format(d, 'yyyy-MM-dd')], as the day number. *)
Definition format_date (d : Z) : Z := dayNumber d.

(** [d.getDay()]: 0 is Sunday. *)
Definition getDay (d : Z) : Z := (dayNumber d + 4) mod 7.

(** [isSameDay(a, b)]. *)
Definition isSameDay (a b : Z) : bool := dayNumber a =? dayNumber b.

(** 2000-01-01 is day 10957. *)
Definition day_2000_01_01 : Z := 10957.

Definition digit (n : Z) : ascii := ascii_of_nat (48 + Z.to_nat n).

Definition pad2 (n : Z) : string :=
  String (digit (n / 10)) (String (digit (n mod 10)) EmptyString).

(** [format(d, 'HH:mm')]. *)
Definition format_HHmm (d : Z) : string :=
  let tod := d mod msDay in
  (pad2 (tod / msHour) ++ ":" ++ pad2 ((tod / msMinute) mod 60))%string.

Definition digit_val (c : ascii) : option Z :=
  let n := Z.of_nat (nat_of_ascii c) in
  if (48 <=? n) && (n <=? 57) then Some (n - 48) else None.

Definition two_digits (a b : ascii) : option Z :=
  match digit_val a, digit_val b with
  | Some x, Some y => Some (10 * x + y)
  | _, _ => None
  end.

(** date-fns [validateTime]. *)
Definition validateTime (hours minutes seconds : Z) : bool :=
  if hours =? 24 then (minutes =? 0) && (seconds =? 0)
  else (0 <=? seconds) && (seconds <? 60) && (0 <=? minutes) &&
       (minutes <? 60) && (0 <=? hours) && (hours <? 25).

(** The decimals of the seconds, at most six of them: the whole
    milliseconds they stand for (the [Date] constructor cuts what is
    below a millisecond) and whether they are all zero. *)
Fixpoint decimals (places : nat) (weight : Z) (s : string) : option (Z * bool) :=
  match s with
  | EmptyString => Some (0, true)
  | String c rest =>
      match places with
      | O => None
      | S places =>
          match digit_val c, decimals places (weight / 10) rest with
          | Some d, Some (ms, zero) => Some (d * weight + ms, (d =? 0) && zero)
          | _, _ => None
          end
      end
  end.

(** [hours * millisecondsInHour + minutes * millisecondsInMinute +
     seconds * 1000] under [validateTime]; the seconds come as their whole
    part and their decimals. *)
Definition time_ms (hours minutes seconds : Z) (fraction : Z * bool) : option Z :=
  if validateTime hours minutes seconds && (negb (hours =? 24) || snd fraction)
  then Some (hours * msHour + minutes * msMinute + seconds * 1000 + fst fraction)
  else None.

(** The time part read by [parseISO], for the shapes this application
    hands to it: ['HH:mm'] (a slot label) and the text of a [time] column,
    ['HH:MM:SS'] or ['HH:MM:SS.ffffff'] with one to six decimals.  [None]
    is JavaScript's Invalid Date. *)
Definition parse_time (s : string) : option Z :=
  match s with
  | String h1 (String h2 (String c1 (String m1 (String m2 rest)))) =>
      if Ascii.eqb c1 ":" then
        match two_digits h1 h2, two_digits m1 m2 with
        | Some h, Some m =>
            match rest with
            | EmptyString => time_ms h m 0 (0, true)
            | String c2 (String s1 (String s2 rest)) =>
                if Ascii.eqb c2 ":" then
                  match two_digits s1 s2 with
                  | Some sec =>
                      match rest with
                      | EmptyString => time_ms h m sec (0, true)
                      | String c3 fraction =>
                          if Ascii.eqb c3 "." then
                            match decimals 6 100 fraction with
                            | Some f => time_ms h m sec f
                            | None => None
                            end
                          else None
                      end
                  | None => None
                  end
                else None
            | _ => None
            end
        | _, _ => None
        end
      else None
  | _ => None
  end.

(** [parseISO(`${dateStr}T${timeStr}`)] for a date given by its day
    number. *)
Definition parseISO (dateStr : Z) (timeStr : string) : option Z :=
  match parse_time timeStr with
  | Some t => Some (dateStr * msDay + t)
  | None => None
  end.

(** [a > b] on dates; an Invalid Date compares false. *)
Definition date_gtb (a : Z) (b : option Z) : bool :=
  match b with
  | Some b => b <? a
  | None => false
  end.

(** [isPast(d)] evaluated when the clock reads [now]. *)
Definition isPast (now : Z) (d : option Z) : bool :=
  match d with
  | Some d => d <? now
  | None => false
  end.

End DateFns.

(* ===================================================================== *)
(** ** Schema (the migration)                                            *)
(* ===================================================================== *)

Definition uuid := string.

Inductive Role := RolePatient | RoleDoctor | RoleAdmin.

Inductive Status := pending | confirmed | cancelled | completed.

Definition Role_eqb (a b : Role) : bool :=
  match a, b with
  | RolePatient, RolePatient | RoleDoctor, RoleDoctor
  | RoleAdmin, RoleAdmin => true
  | _, _ => false
  end.

Definition Status_eqb (a b : Status) : bool :=
  match a, b with
  | pending, pending | confirmed, confirmed
  | cancelled, cancelled | completed, completed => true
  | _, _ => false
  end.

(** [profiles]. *)
Record Profile := mkProfile {
  profile_id : uuid;
  email : string;
  full_name : string;
  role : Role
}.

(** [doctors]; the two flags are nullable booleans in the migration. *)
Record Doctor := mkDoctor {
  doctor_pk : uuid;
  user_id : uuid;
  specialization : string;
  is_available : option bool;
  is_verified : option bool
}.

(** [doctor_schedules]. *)
Record Schedule := mkSchedule {
  schedule_pk : uuid;
  schedule_doctor_id : uuid;
  day_of_week : Z;
  start_time : string;
  end_time : string;
  schedule_is_available : option bool
}.

(** [appointments]. *)
Record Appointment := mkAppointment {
  appointment_pk : uuid;
  patient_id : uuid;
  doctor_id : uuid;
  appointment_date : Z;
  appointment_time : string;
  status : Status;
  notes : option string;
  patient_notes : option string;
  doctor_notes : option string;
  created_at : Z;
  updated_at : Z
}.

Record Database := mkDatabase {
  profiles : list Profile;
  doctors : list Doctor;
  doctor_schedules : list Schedule;
  appointments : list Appointment
}.

Definition is_true (b : option bool) : bool :=
  match b with Some true => true | _ => false end.

(* ===================================================================== *)
(** ** Row-level policies (the migration)                                *)
(* ===================================================================== *)

(** Permissive policies of one table and one command are or-ed.  The
    caller [uid] is [auth.uid()] of an authenticated session.  These are
    the conditions as the database would evaluate them on a row; whether
    a statement gets as far as that is [under_policies] below. *)
Module Policy.

(** [EXISTS (SELECT 1 FROM profiles WHERE id = auth.uid() AND role = 'admin')]. *)
Definition is_admin (db : Database) (uid : uuid) : bool :=
  existsb (fun p => String.eqb (profile_id p) uid && Role_eqb (role p) RoleAdmin)
          (profiles db).

(** [EXISTS (SELECT 1 FROM doctors WHERE id = doctor_id AND user_id = auth.uid())]. *)
Definition owns_doctor (db : Database) (uid did : uuid) : bool :=
  existsb (fun d => String.eqb (doctor_pk d) did && String.eqb (user_id d) uid)
          (doctors db).

(** [EXISTS (SELECT 1 FROM doctors WHERE id = doctor_id AND is_verified = true)]. *)
Definition verified_doctor (db : Database) (did : uuid) : bool :=
  existsb (fun d => String.eqb (doctor_pk d) did && is_true (is_verified d))
          (doctors db).

(** SELECT on [profiles]: "Users can read own profile", "Anyone can read
    doctor profiles", "Admins can read all profiles". *)
Definition profiles_select (db : Database) (uid : uuid) (p : Profile) : bool :=
  String.eqb (profile_id p) uid || Role_eqb (role p) RoleDoctor || is_admin db uid.

(** SELECT on [doctors]: "Anyone can read verified doctors", "Doctors
    can manage own profile", "Admins can manage all doctors". *)
Definition doctors_select (db : Database) (uid : uuid) (d : Doctor) : bool :=
  is_true (is_verified d) || String.eqb (user_id d) uid || is_admin db uid.

(** SELECT on [doctor_schedules]: "Anyone can read doctor schedules",
    "Doctors can manage own schedules". *)
Definition schedules_select (db : Database) (uid : uuid) (s : Schedule) : bool :=
  verified_doctor db (schedule_doctor_id s) ||
  owns_doctor db uid (schedule_doctor_id s).

(** SELECT on [appointments]: "Patients can read own appointments",
    "Doctors can read their appointments", "Admins can manage all
    appointments". *)
Definition appointments_select (db : Database) (uid : uuid) (a : Appointment) : bool :=
  String.eqb (patient_id a) uid || owns_doctor db uid (doctor_id a) ||
  is_admin db uid.

(** INSERT on [appointments]: "Patients can create appointments",
    "Admins can manage all appointments". *)
Definition appointments_insert (db : Database) (uid : uuid) (a : Appointment) : bool :=
  String.eqb (patient_id a) uid || is_admin db uid.

(** UPDATE on [appointments]: "Patients can update own appointments",
    "Doctors can update their appointments", "Admins can manage all
    appointments". *)
Definition appointments_update (db : Database) (uid : uuid) (a : Appointment) : bool :=
  String.eqb (patient_id a) uid || owns_doctor db uid (doctor_id a) ||
  is_admin db uid.

End Policy.

(* ===================================================================== *)
(** ** The data access client                                            *)
(* ===================================================================== *)

(** What a request resolves to: [{ data, error }] with one of the two set. *)
Inductive Response (A : Type) : Type :=
| Data (data : A)
| Error (error : string).
Arguments Data {A} data.
Arguments Error {A} error.

(** How a request fares.  [Answered]: the database runs the statement
    and its answer arrives.  [Failed]: the statement is not run and the
    client gets [error] (the request is lost on the way, or the database
    turns the statement down before running it).  [Unanswered]: the
    database runs the statement, the answer is lost, and the client gets
    [error]. *)
Inductive Transport :=
| Answered
| Failed (error : string)
| Unanswered (error : string).

Definition over (A : Type) (net : Transport) (rows : A) : Response A :=
  match net with
  | Answered => Data rows
  | Failed e | Unanswered e => Error e
  end.

Definition is_booking_status (s : Status) : bool :=
  Status_eqb s pending || Status_eqb s confirmed.

(** [from('doctor_schedules').select('*').eq('doctor_id', did)
      .eq('day_of_week', dow).eq('is_available', true)]. *)
Definition select_schedules (net : Transport) (db : Database) (uid did : uuid)
           (dow : Z) : Response (list Schedule) :=
  over net
    (filter (fun s => Policy.schedules_select db uid s &&
                      String.eqb (schedule_doctor_id s) did &&
                      (day_of_week s =? dow) &&
                      is_true (schedule_is_available s))
            (doctor_schedules db)).

(** [from('appointments').select('appointment_time').eq('doctor_id', did)
      .eq('appointment_date', dateStr).in('status', ['pending', 'confirmed'])]. *)
Definition select_appointment_times (net : Transport) (db : Database)
           (uid did : uuid) (dateStr : Z) : Response (list Appointment) :=
  over net
    (filter (fun a => Policy.appointments_select db uid a &&
                      String.eqb (doctor_id a) did &&
                      (appointment_date a =? dateStr) &&
                      is_booking_status (status a))
            (appointments db)).

(** [from('doctors').select(...).eq('is_verified', true).eq('is_available', true)]. *)
Definition select_directory (net : Transport) (db : Database) (uid : uuid)
  : Response (list Doctor) :=
  over net
    (filter (fun d => Policy.doctors_select db uid d &&
                      is_true (is_verified d) && is_true (is_available d))
            (doctors db)).

(* ===================================================================== *)
(** ** BookAppointment: [generateTimeSlots]                              *)
(* ===================================================================== *)

Record TimeSlot := mkTimeSlot {
  time : string;
  available : bool
}.

Section SlotLoop.

(** The selected date, the clock reading, and the booked times are fixed
    while the slots of one run are built. *)
Variables (selectedDate now : Z) (bookedTimes : list string).

Definition dateStr : Z := DateFns.format_date selectedDate.

(** [bookedTimes.includes(timeStr + ':00')]. *)
Definition isBooked (timeStr : string) : bool :=
  existsb (String.eqb (timeStr ++ ":00")%string) bookedTimes.

(** [isSameDay(selectedDate, new Date()) &&
     new Date() > parseISO(`${dateStr}T${timeStr}`)]. *)
Definition isPastSlot (timeStr : string) : bool :=
  DateFns.isSameDay selectedDate now &&
  DateFns.date_gtb now (DateFns.parseISO dateStr timeStr).

(** The object pushed for [currentTime]. *)
Definition slot_at (currentTime : Z) : TimeSlot :=
  let timeStr := DateFns.format_HHmm currentTime in
  {| time := timeStr;
     available := negb (isBooked timeStr) && negb (isPastSlot timeStr) |}.

(** [while (currentTime < endTime) { slots.push(...); currentTime += 30 min }],
    threading the array [slots]. *)
Equations? while_loop (endTime currentTime : Z) (slots : list TimeSlot)
  : list TimeSlot by wf (Z.to_nat (endTime - currentTime)) lt :=
  while_loop endTime currentTime slots with Z_lt_dec currentTime endTime => {
    | left _ := while_loop endTime (currentTime + 30 * 60000)
                           (slots ++ [slot_at currentTime]);
    | right _ := slots }.
Proof. lia. Qed.

(** [parseISO(`2000-01-01T${t}`)]. *)
Definition parse_on_2000_01_01 (t : string) : option Z :=
  DateFns.parseISO DateFns.day_2000_01_01 t.

(** The body of [schedules.forEach]: with an Invalid Date on either
    side the comparison is false and the loop body never runs. *)
Definition forEach_body (slots : list TimeSlot) (schedule : Schedule)
  : list TimeSlot :=
  match parse_on_2000_01_01 (start_time schedule),
        parse_on_2000_01_01 (end_time schedule) with
  | Some startTime, Some endTime => while_loop endTime startTime slots
  | _, _ => slots
  end.

Definition build_slots (schedules : list Schedule) : list TimeSlot :=
  fold_left forEach_body schedules [].

End SlotLoop.

(** How one run of [generateTimeSlots] ends. *)
Inductive SlotsRun :=
| NotRun                              (* [if (!doctor) return] *)
| Generated (slots : list TimeSlot)   (* [setTimeSlots(slots)] *)
| Caught (error : string).            (* [catch]: [setTimeSlots([])] *)

(** The [timeSlots] state after the run. *)
Definition timeSlots_after (prev : list TimeSlot) (r : SlotsRun) : list TimeSlot :=
  match r with
  | NotRun => prev
  | Generated slots => slots
  | Caught _ => []
  end.

Definition generateTimeSlots (net1 net2 : Transport) (db : Database) (uid : uuid)
           (doctor : option Doctor) (selectedDate now : Z) : SlotsRun :=
  match doctor with
  | None => NotRun
  | Some doctor =>
      let dayOfWeek := DateFns.getDay selectedDate in
      let dateStr := DateFns.format_date selectedDate in
      match select_schedules net1 db uid (doctor_pk doctor) dayOfWeek with
      | Error scheduleError => Caught scheduleError
      | Data schedules =>
          match select_appointment_times net2 db uid (doctor_pk doctor)
                                                  dateStr with
          | Error appointmentError => Caught appointmentError
          | Data appointments =>
              let bookedTimes := map appointment_time appointments in
              Generated (build_slots selectedDate now bookedTimes schedules)
          end
      end
  end.

(* ===================================================================== *)
(** ** BookAppointment: [handleBookAppointment]                          *)
(* ===================================================================== *)

(** The object handed to [insert]. *)
Record AppointmentInsert := mkInsert {
  ins_patient_id : uuid;
  ins_doctor_id : uuid;
  ins_appointment_date : Z;
  ins_appointment_time : string;
  ins_patient_notes : string;
  ins_status : Status
}.

(** The row the database builds from it: [id] from [gen_random_uuid()],
    both timestamps from [now()], the other notes null. *)
Definition new_row (new_id : uuid) (ts : Z) (p : AppointmentInsert) : Appointment :=
  {| appointment_pk := new_id;
     patient_id := ins_patient_id p;
     doctor_id := ins_doctor_id p;
     appointment_date := ins_appointment_date p;
     appointment_time := ins_appointment_time p;
     status := ins_status p;
     notes := None;
     patient_notes := Some (ins_patient_notes p);
     doctor_notes := None;
     created_at := ts;
     updated_at := ts |}.

Definition set_appointments (db : Database) (rows : list Appointment) : Database :=
  {| profiles := profiles db;
     doctors := doctors db;
     doctor_schedules := doctor_schedules db;
     appointments := rows |}.

(** [UNIQUE(doctor_id, appointment_date, appointment_time)]. *)
Definition same_booking (a b : Appointment) : bool :=
  String.eqb (doctor_id a) (doctor_id b) &&
  (appointment_date a =? appointment_date b) &&
  String.eqb (appointment_time a) (appointment_time b).

(** [REFERENCES profiles(id)] and [REFERENCES doctors(id)]. *)
Definition references_hold (db : Database) (a : Appointment) : bool :=
  existsb (fun p => String.eqb (profile_id p) (patient_id a)) (profiles db) &&
  existsb (fun d => String.eqb (doctor_pk d) (doctor_id a)) (doctors db).

(** What the database does with an INSERT on [appointments]: the
    with-check policy, the primary key, the uniqueness constraint and the
    foreign keys; the error texts are the SQLSTATE codes. *)
Definition insert_row (db : Database) (uid : uuid) (row : Appointment)
  : Response Database :=
  if negb (Policy.appointments_insert db uid row) then Error "42501"
  else if existsb (fun a => String.eqb (appointment_pk a) (appointment_pk row))
                  (appointments db) then Error "23505"
  else if existsb (same_booking row) (appointments db) then Error "23505"
  else if negb (references_hold db row) then Error "23503"
  else Data (set_appointments db (appointments db ++ [row])).

(** [from('appointments').insert({...})]: the database afterwards and
    what the client is told.  A statement that was run and accepted has
    stored its row whether or not the answer arrives. *)
Definition insert_appointment (net : Transport) (new_id : uuid) (ts : Z)
           (db : Database) (uid : uuid) (p : AppointmentInsert)
  : Database * Response unit :=
  match net with
  | Failed e => (db, Error e)
  | Answered =>
      match insert_row db uid (new_row new_id ts p) with
      | Data db' => (db', Data tt)
      | Error e => (db, Error e)
      end
  | Unanswered e =>
      match insert_row db uid (new_row new_id ts p) with
      | Data db' => (db', Error e)
      | Error _ => (db, Error e)
      end
  end.

(** What the user is shown. *)
Inductive UiEffect :=
| Navigate (path message : string)
| Alert (message : string).

(** One run of [handleBookAppointment]: the insert requests it sent, the
    database afterwards, and what the user saw. *)
Record BookingRun := mkBookingRun {
  book_requests : list AppointmentInsert;
  book_db : Database;
  book_ui : list UiEffect
}.

Definition booked_message : string :=
  "Appointment booked successfully! The doctor will confirm shortly.".

Definition failed_message : string :=
  "Failed to book appointment. Please try again.".

Definition handleBookAppointment (net : Transport) (new_id : uuid) (ts : Z)
           (db : Database) (doctor : option Doctor) (selectedTime : string)
           (user : option uuid) (selectedDate : Z) (notes : string) : BookingRun :=
  match doctor, user with
  | Some doctor, Some user =>
      if String.eqb selectedTime "" then mkBookingRun [] db []
      else
        let payload :=
          {| ins_patient_id := user;
             ins_doctor_id := doctor_pk doctor;
             ins_appointment_date := DateFns.format_date selectedDate;
             ins_appointment_time := (selectedTime ++ ":00")%string;
             ins_patient_notes := notes;
             ins_status := pending |} in
        let (db', answer) := insert_appointment net new_id ts db user payload in
        match answer with
        | Data _ =>
            mkBookingRun [payload] db' [Navigate "/appointments" booked_message]
        | Error _ =>
            mkBookingRun [payload] db' [Alert failed_message]
        end
  | _, _ => mkBookingRun [] db []
  end.

(* ===================================================================== *)
(** ** Status updates and the two appointment lists                      *)
(* ===================================================================== *)

(** The row after [update({ status })]; the trigger stamps [updated_at]. *)
Definition with_status (a : Appointment) (st : Status) (ts : Z) : Appointment :=
  {| appointment_pk := appointment_pk a;
     patient_id := patient_id a;
     doctor_id := doctor_id a;
     appointment_date := appointment_date a;
     appointment_time := appointment_time a;
     status := st;
     notes := notes a;
     patient_notes := patient_notes a;
     doctor_notes := doctor_notes a;
     created_at := created_at a;
     updated_at := ts |}.

(** What an UPDATE of the status does to one row: the row is rewritten
    when it has the id asked for and the caller's update policy lets it
    through; no other condition is sent. *)
Definition touch (db : Database) (uid appointmentId : uuid) (st : Status) (ts : Z)
           (a : Appointment) : Appointment :=
  if String.eqb (appointment_pk a) appointmentId &&
     Policy.appointments_update db uid a
  then with_status a st ts else a.

(** [from('appointments').update({ status }).eq('id', appointmentId)]:
    the database afterwards and what the client is told. *)
Definition update_status (net : Transport) (ts : Z) (db : Database) (uid : uuid)
           (appointmentId : uuid) (st : Status) : Database * Response unit :=
  let db' :=
    set_appointments db (map (touch db uid appointmentId st ts) (appointments db)) in
  match net with
  | Answered => (db', Data tt)
  | Failed e => (db, Error e)
  | Unanswered e => (db', Error e)
  end.

(** [.order('appointment_date', { ascending: true })
     .order('appointment_time', { ascending: true })]. *)
Definition appointment_leb (a b : Appointment) : bool :=
  (appointment_date a <? appointment_date b) ||
  ((appointment_date a =? appointment_date b) &&
   String.leb (appointment_time a) (appointment_time b)).

Fixpoint insert_sorted (a : Appointment) (l : list Appointment) : list Appointment :=
  match l with
  | [] => [a]
  | b :: rest => if appointment_leb a b then a :: l else b :: insert_sorted a rest
  end.

Definition order_by_date_time (l : list Appointment) : list Appointment :=
  fold_right insert_sorted [] l.

(** The query of [fetchAppointments]: the caller's appointments as patient. *)
Definition select_patient_appointments (net : Transport) (db : Database)
           (uid : uuid) : Response (list Appointment) :=
  over net
    (order_by_date_time
       (filter (fun a => Policy.appointments_select db uid a &&
                         String.eqb (patient_id a) uid)
               (appointments db))).

(** [from('doctors').select('id').eq('user_id', user.id).single()]. *)
Definition select_own_doctor (net : Transport) (db : Database) (uid : uuid)
  : Response Doctor :=
  match net with
  | Answered =>
      match filter (fun d => Policy.doctors_select db uid d &&
                             String.eqb (user_id d) uid) (doctors db) with
      | [d] => Data d
      | _ => Error "PGRST116"
      end
  | Failed e | Unanswered e => Error e
  end.

(** The upcoming-appointments query of [fetchDashboardData]. *)
Definition select_doctor_appointments (net : Transport) (db : Database)
           (uid did : uuid) (today : Z) : Response (list Appointment) :=
  over net
    (firstn 10
       (order_by_date_time
          (filter (fun a => Policy.appointments_select db uid a &&
                            String.eqb (doctor_id a) did &&
                            (today <=? appointment_date a))
                  (appointments db)))).

(** The statistics query of [fetchDashboardData]. *)
Definition select_doctor_stats (net : Transport) (db : Database)
           (uid did : uuid) : Response (list Appointment) :=
  over net
    (filter (fun a => Policy.appointments_select db uid a &&
                      String.eqb (doctor_id a) did)
            (appointments db)).

(** [fetchAppointments]: the new [appointments] state of the patient's
    list; on an error the state is left as it was. *)
Definition fetchAppointments (net : Transport) (db : Database) (uid : uuid)
           (shown : list Appointment) : list Appointment :=
  match select_patient_appointments net db uid with
  | Data data => data
  | Error _ => shown
  end.

(** [fetchDashboardData]: the new [appointments] state of the dashboard;
    any of the three requests failing leaves the state as it was. *)
Definition fetchDashboardData (net1 net2 net3 : Transport) (db : Database)
           (uid : uuid) (now : Z) (shown : list Appointment) : list Appointment :=
  match select_own_doctor net1 db uid with
  | Error _ => shown
  | Data doctorData =>
      match select_doctor_appointments net2 db uid (doctor_pk doctorData)
                                       (DateFns.format_date now) with
      | Error _ => shown
      | Data appointmentsData =>
          match select_doctor_stats net3 db uid (doctor_pk doctorData) with
          | Error _ => shown
          | Data _ => appointmentsData
          end
      end
  end.

(** The tabs of the patient's list. *)
Inductive Filter := FilterAll | FilterUpcoming | FilterPast.

Definition appointment_moment (a : Appointment) : option Z :=
  DateFns.parseISO (appointment_date a) (appointment_time a).

(** [filteredAppointments]. *)
Definition passes_filter (f : Filter) (now : Z) (apt : Appointment) : bool :=
  let isAppointmentPast := DateFns.isPast now (appointment_moment apt) in
  match f with
  | FilterUpcoming => negb isAppointmentPast &&
                      negb (Status_eqb (status apt) cancelled) &&
                      negb (Status_eqb (status apt) completed)
  | FilterPast => isAppointmentPast || Status_eqb (status apt) completed ||
                  Status_eqb (status apt) cancelled
  | FilterAll => true
  end.

(** The patient's Cancel button:
    [appointment.status === 'pending' && !isAppointmentPast]. *)
Definition cancel_offered (now : Z) (appointment : Appointment) : bool :=
  Status_eqb (status appointment) pending &&
  negb (DateFns.isPast now (appointment_moment appointment)).

(** The doctor's buttons: Confirm and Cancel on a pending row, Mark
    Complete on a confirmed one. *)
Definition doctor_offers (appointment : Appointment) : list Status :=
  match status appointment with
  | pending => [confirmed; cancelled]
  | confirmed => [completed]
  | _ => []
  end.

(** [cancelAppointment]: the confirm dialog, the update, and on success
    the refetch.  Returns the database and the list shown afterwards. *)
Definition cancelAppointment (dialog : bool) (net_update net_fetch : Transport)
           (ts : Z) (db : Database) (uid appointmentId : uuid)
           (shown : list Appointment) : Database * list Appointment :=
  if negb dialog then (db, shown)
  else
    let (db', answer) := update_status net_update ts db uid appointmentId cancelled in
    match answer with
    | Error _ => (db', shown)
    | Data _ => (db', fetchAppointments net_fetch db' uid shown)
    end.

(** [updateAppointmentStatus]. *)
Definition updateAppointmentStatus (net_update net1 net2 net3 : Transport)
           (ts now : Z) (db : Database) (uid appointmentId : uuid) (st : Status)
           (shown : list Appointment) : Database * list Appointment :=
  let (db', answer) := update_status net_update ts db uid appointmentId st in
  match answer with
  | Error _ => (db', shown)
  | Data _ => (db', fetchDashboardData net1 net2 net3 db' uid now shown)
  end.

(* ===================================================================== *)
(** ** DoctorsList: [fetchDoctors]                                       *)
(* ===================================================================== *)

(** The new [doctors] state of the directory; an error leaves it as it
    was. *)
Definition fetchDoctors (net : Transport) (db : Database) (uid : uuid)
           (shown : list Doctor) : list Doctor :=
  match select_directory net db uid with
  | Data data => data
  | Error _ => shown
  end.

(* ===================================================================== *)
(** ** The system: one database, one open list per user                  *)
(* ===================================================================== *)

Definition Pages := list (uuid * list Appointment).

Definition page_of (uid : uuid) (pages : Pages) : list Appointment :=
  match find (fun p => String.eqb (fst p) uid) pages with
  | Some p => snd p
  | None => []
  end.

Definition show (uid : uuid) (rows : list Appointment) (pages : Pages) : Pages :=
  (uid, rows) :: pages.

Record World := mkWorld {
  db : Database;
  patient_pages : Pages;    (* [appointments] of each PatientAppointments *)
  doctor_pages : Pages      (* [appointments] of each DoctorDashboard *)
}.

(** What users can do.  Every action carries what the environment
    decides: the clock, the fresh id, and how each request fares.  A click
    carries two clock readings: [now], when the list the button is part of
    was drawn (nothing redraws it as time passes), and [ts], when the
    database runs the update. *)
Inductive Action :=
| Book (uid : uuid) (doctor : option Doctor) (selectedDate : Z)
       (picked : option Z) (notes : string)
       (new_id : uuid) (ts : Z) (net : Transport)
| OpenAppointments (uid : uuid) (net : Transport)
| ClickCancel (uid appointmentId : uuid) (f : Filter) (now : Z) (dialog : bool)
              (ts : Z) (net_update net_fetch : Transport)
| OpenDashboard (uid : uuid) (now : Z) (net1 net2 net3 : Transport)
| ClickDoctor (uid appointmentId : uuid) (st : Status) (ts now : Z)
              (net_update net1 net2 net3 : Transport).

(** [selectedTime]: empty until a slot button is clicked, then that
    slot's label. *)
Definition selectedTime_of (picked : option Z) : string :=
  match picked with
  | Some currentTime => DateFns.format_HHmm currentTime
  | None => ""
  end.

(** Is the Cancel button of [appointmentId] among the rows of the
    patient's list? *)
Definition cancel_button (f : Filter) (now : Z) (appointmentId : uuid)
           (shown : list Appointment) : bool :=
  existsb (fun a => String.eqb (appointment_pk a) appointmentId &&
                    passes_filter f now a && cancel_offered now a) shown.

(** The rows embedded in a list query come back [null] when the caller
    cannot read them.  The [profiles] and [doctors] tables are the same
    when a list is fetched and when it is clicked, so the embedded rows
    are looked up where they are needed. *)
Definition embedded_profile (db : Database) (uid id : uuid) : option Profile :=
  find (fun p => String.eqb (profile_id p) id && Policy.profiles_select db uid p)
       (profiles db).

Definition embedded_doctor (db : Database) (uid id : uuid) : option Doctor :=
  find (fun d => String.eqb (doctor_pk d) id && Policy.doctors_select db uid d)
       (doctors db).

(** The patient's list reads [appointment.doctors.profiles.full_name] of
    every row under the chosen tab, and the render throws on a [null]. *)
Definition appointments_page_draws (db : Database) (uid : uuid) (f : Filter)
           (now : Z) (shown : list Appointment) : bool :=
  forallb (fun a => match embedded_doctor db uid (doctor_id a) with
                    | Some d => match embedded_profile db uid (user_id d) with
                                | Some _ => true
                                | None => false
                                end
                    | None => false
                    end)
          (filter (passes_filter f now) shown).

(** The dashboard reads [appointment.profiles.full_name] of every row. *)
Definition dashboard_draws (db : Database) (uid : uuid)
           (shown : list Appointment) : bool :=
  forallb (fun a => match embedded_profile db uid (patient_id a) with
                    | Some _ => true
                    | None => false
                    end)
          shown.

(** Is the button for [st] of [appointmentId] on the doctor's screen?
    It is when the dashboard can be drawn and the row offers it. *)
Definition doctor_button (db : Database) (uid : uuid) (st : Status)
           (appointmentId : uuid) (shown : list Appointment) : bool :=
  dashboard_draws db uid shown &&
  existsb (fun a => String.eqb (appointment_pk a) appointmentId &&
                    existsb (Status_eqb st) (doctor_offers a)) shown.

Definition exec (w : World) (act : Action) : World :=
  match act with
  | Book uid doctor selectedDate picked notes new_id ts net =>
      let r := handleBookAppointment net new_id ts (db w) doctor
                 (selectedTime_of picked) (Some uid) selectedDate notes in
      mkWorld (book_db r) (patient_pages w) (doctor_pages w)
  | OpenAppointments uid net =>
      let shown := page_of uid (patient_pages w) in
      mkWorld (db w)
              (show uid (fetchAppointments net (db w) uid shown) (patient_pages w))
              (doctor_pages w)
  | ClickCancel uid appointmentId f now dialog ts net_update net_fetch =>
      let shown := page_of uid (patient_pages w) in
      if appointments_page_draws (db w) uid f now shown &&
         cancel_button f now appointmentId shown then
        let '(db', shown') :=
          cancelAppointment dialog net_update net_fetch ts (db w) uid
                            appointmentId shown in
        mkWorld db' (show uid shown' (patient_pages w)) (doctor_pages w)
      else w
  | OpenDashboard uid now net1 net2 net3 =>
      let shown := page_of uid (doctor_pages w) in
      mkWorld (db w) (patient_pages w)
              (show uid (fetchDashboardData net1 net2 net3 (db w) uid now shown)
                    (doctor_pages w))
  | ClickDoctor uid appointmentId st ts now net_update net1 net2 net3 =>
      let shown := page_of uid (doctor_pages w) in
      if doctor_button (db w) uid st appointmentId shown then
        let '(db', shown') :=
          updateAppointmentStatus net_update net1 net2 net3 ts now (db w) uid
                                  appointmentId st shown in
        mkWorld db' (patient_pages w) (show uid shown' (doctor_pages w))
      else w
  end.

Definition run (acts : list Action) (w : World) : World :=
  fold_left exec acts w.

(** A system with no appointment yet and no list open. *)
Definition initial (ps : list Profile) (ds : list Doctor) (ss : list Schedule)
  : World :=
  mkWorld (mkDatabase ps ds ss []) [] [].

(* ===================================================================== *)
(** ** Vocabulary of the properties                                      *)
(* ===================================================================== *)

(** The 30-minute step of the loop, in milliseconds. *)
Definition slot_step : Z := 30 * 60000.

(** [n] consecutive loop times starting at [cur]. *)
Fixpoint steps_from (n : nat) (cur : Z) : list Z :=
  match n with
  | O => []
  | S n => cur :: steps_from n (cur + slot_step)
  end.

(** Number of times [cur], [cur + 30min], ... that are below [endTime]. *)
Definition slot_count (endTime cur : Z) : nat :=
  Z.to_nat ((endTime - cur + (slot_step - 1)) / slot_step).

(** Times of day (milliseconds after midnight) walked for an entry. *)
Definition entry_times (schedule : Schedule) : list Z :=
  match DateFns.parse_time (start_time schedule),
        DateFns.parse_time (end_time schedule) with
  | Some s, Some e => steps_from (slot_count e s) s
  | _, _ => []
  end.

(** The label of minute [m] of the day, and the minute a date falls in. *)
Definition label (m : Z) : string :=
  (DateFns.pad2 (m / 60) ++ ":" ++ DateFns.pad2 (m mod 60))%string.

Definition minute_of_day (d : Z) : Z := (d mod DateFns.msDay) / DateFns.msMinute.


(** The time of day a slot's label stands for. *)
Definition slot_ms (s : TimeSlot) : option Z := DateFns.parse_time (time s).

(** Each slot's time compares ([cmp]) with the one before it. *)
Fixpoint ordered_after (cmp : Z -> Z -> bool) (prev : Z) (l : list TimeSlot) : bool :=
  match l with
  | [] => true
  | s :: rest =>
      match slot_ms s with
      | Some t => cmp prev t && ordered_after cmp t rest
      | None => false
      end
  end.

Definition ordered (cmp : Z -> Z -> bool) (l : list TimeSlot) : bool :=
  match l with
  | [] => true
  | s :: rest =>
      match slot_ms s with
      | Some t => ordered_after cmp t rest
      | None => false
      end
  end.

(** Ascending: every time is greater than or equal to the previous one. *)
Definition ascending : list TimeSlot -> bool := ordered Z.leb.




(** The (doctor, date, time) of a row. *)
Definition booking_key (a : Appointment) : uuid * Z * string :=
  (doctor_id a, appointment_date a, appointment_time a).

Definition booked_at (D : uuid) (d : Z) (t : string) (a : Appointment) : bool :=
  String.eqb (doctor_id a) D && (appointment_date a =? d) &&
  String.eqb (appointment_time a) t.

(** [cancelled] and [completed]. *)
Definition terminal (s : Status) : bool :=
  Status_eqb s cancelled || Status_eqb s completed.

(** Two rows that differ in [status] and [updated_at] at most. *)
Definition same_but_status (a a' : Appointment) : Prop :=
  appointment_pk a' = appointment_pk a /\
  patient_id a' = patient_id a /\
  doctor_id a' = doctor_id a /\
  appointment_date a' = appointment_date a /\
  appointment_time a' = appointment_time a /\
  notes a' = notes a /\
  patient_notes a' = patient_notes a /\
  doctor_notes a' = doctor_notes a /\
  created_at a' = created_at a.

(** A change of the database that leaves everything alone except the
    status and the update stamp of the rows with id [appointmentId]. *)
Definition only_status_touched (appointmentId : uuid) (db db' : Database) : Prop :=
  profiles db' = profiles db /\
  doctors db' = doctors db /\
  doctor_schedules db' = doctor_schedules db /\
  Forall2 (fun a a' => same_but_status a a' /\
                       (appointment_pk a <> appointmentId -> a' = a))
          (appointments db) (appointments db').

(** The list the acting user is looking at. *)
Definition acting_page (w : World) (act : Action) : list Appointment :=
  match act with
  | ClickCancel uid _ _ _ _ _ _ _ => page_of uid (patient_pages w)
  | ClickDoctor uid _ _ _ _ _ _ _ _ => page_of uid (doctor_pages w)
  | _ => []
  end.

(** The acting user's list shows every row under its stored status. *)
Definition view_is_current (w : World) (act : Action) : bool :=
  forallb (fun r =>
             forallb (fun s => negb (String.eqb (appointment_pk s) (appointment_pk r))
                               || Status_eqb (status s) (status r))
                     (appointments (db w)))
          (acting_page w act).

(** Worlds the system can be in. *)
Definition reachable (w : World) : Prop :=
  exists ps ds ss acts, w = run acts (initial ps ds ss).

(** One primary key per row, one row per (doctor, date, time). *)
Definition unique_ids (l : list Appointment) : Prop :=
  NoDup (map appointment_pk l).

Definition unique_bookings (l : list Appointment) : Prop :=
  NoDup (map booking_key l).

(** The three ways an action can leave the database: untouched, with one
    row added that clashes with no stored id or booking, or with the
    status of some rows rewritten. *)
Inductive db_step (db db' : Database) : Prop :=
| step_same : db' = db -> db_step db db'
| step_insert (row : Appointment) :
    db' = set_appointments db (appointments db ++ [row]) ->
    ~ In (appointment_pk row) (map appointment_pk (appointments db)) ->
    ~ In (booking_key row) (map booking_key (appointments db)) ->
    db_step db db'
| step_update (uid appointmentId : uuid) (st : Status) (ts : Z) :
    db' = set_appointments db
            (map (touch db uid appointmentId st ts) (appointments db)) ->
    db_step db db'.

(** A listed row has a stored row with its id, date and time. *)
Definition stored_as (r : Appointment) (db : Database) : Prop :=
  exists s, In s (appointments db) /\
            appointment_pk s = appointment_pk r /\
            appointment_date s = appointment_date r /\
            appointment_time s = appointment_time r.

Definition pages_stored (w : World) : Prop :=
  forall uid rows r,
    In (uid, rows) (patient_pages w) -> In r rows -> stored_as r (db w).

(* ===================================================================== *)
(** ** A small clinic, for concrete runs                                 *)
(* ===================================================================== *)

Module Clinic.
Local Open Scope string_scope.

Definition alice : Profile :=
  mkProfile "p-alice" "alice@example.org" "Alice" RolePatient.
Definition bob : Profile :=
  mkProfile "p-bob" "bob@example.org" "Bob" RolePatient.
Definition grey_profile : Profile :=
  mkProfile "u-grey" "grey@example.org" "Grey" RoleDoctor.

Definition grey : Doctor :=
  mkDoctor "d-grey" "u-grey" "Cardiology" (Some true) (Some true).

(** Monday, 09:00 to 10:00, and Monday, 10:00 to 11:00. *)
Definition monday_morning : Schedule :=
  mkSchedule "s-1" "d-grey" 1 "09:00:00" "10:00:00" (Some true).

(** Monday 2026-11-02 at 00:00, and the Sunday before at noon. *)
Definition monday : Z := 20759 * 86400000.
Definition sunday_noon : Z := 20758 * 86400000 + 12 * 3600000.

(** The slot button 09:30. *)
Definition half_past_nine : Z := 9 * 3600000 + 30 * 60000.

Definition opening : World :=
  initial [alice; bob; grey_profile] [grey] [monday_morning].

(** Alice books Monday 09:30 with Dr Grey. *)
Definition alice_books : Action :=
  Book "p-alice" (Some grey) monday (Some half_past_nine) "" "a-1" sunday_noon
       Answered.

(** Dr Grey opens the dashboard, then clicks Confirm. *)
Definition grey_opens : Action :=
  OpenDashboard "u-grey" sunday_noon Answered Answered Answered.

Definition grey_confirms : Action :=
  ClickDoctor "u-grey" "a-1" confirmed sunday_noon sunday_noon
              Answered Answered Answered Answered.

(** The appointment as booked, and as cancelled. *)
Definition booked_row : Appointment :=
  mkAppointment "a-1" "p-alice" "d-grey" 20759 "09:30:00" pending
                None (Some "") None sunday_noon sunday_noon.


(** Monday at 10:00, after the appointment. *)
Definition monday_ten : Z := monday + 10 * 3600000.


(** With every statement run as the row-by-row policies allow: Alice has
    booked, Dr Grey has opened the dashboard and clicked where Confirm
    would be; the dashboard cannot draw a row whose patient profile the
    doctor cannot read, so the click does nothing. *)
Definition grey_confirmed : World :=
  run [alice_books; grey_opens; grey_confirms] opening.

(** A store that holds the booking and the cancelled booking, however
    the rows got there. *)
Definition store_with_booking : Database :=
  mkDatabase [alice; bob; grey_profile] [grey] [monday_morning] [booked_row].



Definition alice_sees_booking : World :=
  mkWorld store_with_booking [("p-alice", [booked_row])] [].

(** Two overlapping windows on Monday. *)
Definition long_window : Schedule :=
  mkSchedule "s-2" "d-grey" 1 "09:00:00" "10:30:00" (Some true).
Definition short_window : Schedule :=
  mkSchedule "s-3" "d-grey" 1 "09:30:00" "10:00:00" (Some true).

(** A window given to the microsecond. *)
Definition odd_window : Schedule :=
  mkSchedule "s-5" "d-grey" 1 "09:00:00.5" "09:45:00" (Some true).

End Clinic.
(* ===================================================================== *)
(** ** BookAppointment: the doctor, the dates, the slot buttons          *)
(* ===================================================================== *)

(** [from('doctors').select(...).eq('id', doctorId).single()]. *)
Definition select_doctor_by_id (net : Transport) (db : Database)
           (uid doctorId : uuid) : Response Doctor :=
  match net with
  | Answered =>
      match filter (fun d => Policy.doctors_select db uid d &&
                             String.eqb (doctor_pk d) doctorId) (doctors db) with
      | [d] => Data d
      | _ => Error "PGRST116"
      end
  | Failed e | Unanswered e => Error e
  end.

(** [fetchDoctor]: the new [doctor] state; an error leaves it as it was
    (it starts as [null], which draws "Doctor not found"). *)
Definition fetchDoctor (net : Transport) (db : Database) (uid doctorId : uuid)
           (doctor : option Doctor) : option Doctor :=
  match select_doctor_by_id net db uid doctorId with
  | Data data => Some data
  | Error _ => doctor
  end.

(** [addDays(d, n)]. *)
Definition addDays (d n : Z) : Z := d + n * DateFns.msDay.

(** [Array.from({ length: 14 }, (_, i) => addDays(new Date(), i))]. *)
Definition dates (now : Z) : list Z :=
  map (fun i => addDays now (Z.of_nat i)) (seq 0 14).

(* ===================================================================== *)
(** ** DoctorDashboard: the statistics                                   *)
(* ===================================================================== *)

Record Stats := mkStats {
  total_appointments : nat;
  pending_appointments : nat;
  todays_appointments : nat;
  this_week_appointments : nat
}.

(** [calculatedStats]; the dates are compared as ['yyyy-MM-dd'] texts,
    here as day numbers. *)
Definition calculatedStats (now : Z) (allAppointments : list Appointment) : Stats :=
  let today := DateFns.format_date now in
  let weekFromNow := DateFns.format_date (addDays now 7) in
  {| total_appointments := List.length allAppointments;
     pending_appointments :=
       List.length (filter (fun a => Status_eqb (status a) pending) allAppointments);
     todays_appointments :=
       List.length (filter (fun a => appointment_date a =? today) allAppointments);
     this_week_appointments :=
       List.length (filter (fun a => (today <=? appointment_date a) &&
                                     (appointment_date a <=? weekFromNow))
                           allAppointments) |}.

(** The [stats] state after [fetchDashboardData]: set together with the
    list, when all three requests got through. *)
Definition fetchDashboardStats (net1 net2 net3 : Transport) (db : Database)
           (uid : uuid) (now : Z) (stats : Stats) : Stats :=
  match select_own_doctor net1 db uid with
  | Error _ => stats
  | Data doctorData =>
      match select_doctor_appointments net2 db uid (doctor_pk doctorData)
                                       (DateFns.format_date now) with
      | Error _ => stats
      | Data _ =>
          match select_doctor_stats net3 db uid (doctor_pk doctorData) with
          | Error _ => stats
          | Data allAppointments => calculatedStats now allAppointments
          end
      end
  end.

(* ===================================================================== *)
(** ** DoctorsList: search and the specialization menu                   *)
(* ===================================================================== *)

(** A directory row: the doctor and the embedded profile, which is
    [null] when the caller cannot read it. *)
Record DirectoryRow := mkDirectoryRow {
  listed : Doctor;
  listed_profile : option Profile
}.

(** [s.includes(sub)]. *)
Fixpoint includes (s sub : string) : bool :=
  String.prefix sub s ||
  match s with
  | EmptyString => false
  | String _ rest => includes rest sub
  end.

(** [[...new Set(xs)]]: each value once, at its first place. *)
Fixpoint unique_values (seen xs : list string) : list string :=
  match xs with
  | [] => []
  | x :: rest =>
      if existsb (String.eqb x) seen then unique_values seen rest
      else x :: unique_values (x :: seen) rest
  end.

(** [uniqueSpecializations]. *)
Definition uniqueSpecializations (data : list DirectoryRow) : list string :=
  unique_values [] (map (fun d => specialization (listed d)) data).

Section DoctorsSearch.

(** JavaScript's [toLowerCase]. *)
Variable toLowerCase : string -> string.

(** [doctor.profiles?.full_name.toLowerCase().includes(...) ||
     doctor.specialization.toLowerCase().includes(...)]. *)
Definition matchesSearch (searchTerm : string) (doctor : DirectoryRow) : bool :=
  match listed_profile doctor with
  | Some p => includes (toLowerCase (full_name p)) (toLowerCase searchTerm)
  | None => false
  end ||
  includes (toLowerCase (specialization (listed doctor))) (toLowerCase searchTerm).

(** [!selectedSpecialization || doctor.specialization === selectedSpecialization]. *)
Definition matchesSpecialization (selectedSpecialization : string)
           (doctor : DirectoryRow) : bool :=
  String.eqb selectedSpecialization "" ||
  String.eqb (specialization (listed doctor)) selectedSpecialization.

Definition filteredDoctors (searchTerm selectedSpecialization : string)
           (doctors : list DirectoryRow) : list DirectoryRow :=
  filter (fun doctor => matchesSearch searchTerm doctor &&
                        matchesSpecialization selectedSpecialization doctor)
         doctors.

End DoctorsSearch.

(* ===================================================================== *)
(** ** App: routes, ProtectedRoute, Home, Navbar                         *)
(* ===================================================================== *)

(** What [useAuth] hands out. *)
Record Auth := mkAuth {
  auth_loading : bool;
  auth_user : option uuid;
  auth_profile : option Profile
}.

(** The paths written in the code, as link or redirect targets. *)
Inductive Href :=
| HrefRoot                (* "/" *)
| HrefDoctors             (* "/doctors" *)
| HrefAppointments        (* "/appointments" *)
| HrefBook (doctorId : uuid) (* `/book-appointment/${doctor.id}` *)
| HrefDoctorDashboard     (* "/doctor/dashboard" *)
| HrefDoctorSchedule      (* "/doctor/schedule" *)
| HrefDoctorProfile       (* "/doctor/profile" *)
| HrefAdminDashboard      (* "/admin/dashboard" *)
| HrefAdminDoctors        (* "/admin/doctors" *)
| HrefAdminUsers.         (* "/admin/users" *)

(** The [<Route>] elements of [App]. *)
Inductive RouteMatch :=
| RouteHome               (* path="/" *)
| RouteDoctors            (* path="/doctors" *)
| RouteBook (doctorId : uuid) (* path="/book-appointment/:doctorId" *)
| RouteAppointments       (* path="/appointments" *)
| RouteDoctorDashboard    (* path="/doctor/dashboard" *)
| RouteCatchAll.          (* path="*" *)

(** The route each written path falls under. *)
Definition route_of (h : Href) : RouteMatch :=
  match h with
  | HrefRoot => RouteHome
  | HrefDoctors => RouteDoctors
  | HrefAppointments => RouteAppointments
  | HrefBook doctorId => RouteBook doctorId
  | HrefDoctorDashboard => RouteDoctorDashboard
  | HrefDoctorSchedule | HrefDoctorProfile
  | HrefAdminDashboard | HrefAdminDoctors | HrefAdminUsers => RouteCatchAll
  end.

Inductive Screen :=
| DoctorsListScreen
| BookAppointmentScreen (doctorId : uuid)
| PatientAppointmentsScreen
| DoctorDashboardScreen.

(** What a route element draws. *)
Inductive View :=
| LoadingSpinnerView
| LoginFormView
| AccessDeniedView
| ScreenView (s : Screen)
| NavigateView (to : Href).

(** [Home]. *)
Definition Home (auth : Auth) : View :=
  if auth_loading auth then LoadingSpinnerView
  else
    match auth_profile auth with
    | None => LoginFormView
    | Some profile =>
        match role profile with
        | RolePatient => NavigateView HrefDoctors
        | RoleDoctor => NavigateView HrefDoctorDashboard
        | RoleAdmin => NavigateView HrefAdminDashboard
        end
    end.

(** [ProtectedRoute]. *)
Definition ProtectedRoute (auth : Auth) (requiredRole : option Role)
           (children : View) : View :=
  if auth_loading auth then LoadingSpinnerView
  else
    match auth_user auth, auth_profile auth with
    | Some _, Some profile =>
        match requiredRole with
        | Some required =>
            if negb (Role_eqb (role profile) required) then AccessDeniedView
            else children
        | None => children
        end
    | _, _ => LoginFormView
    end.

(** The [<Routes>] of [App]. *)
Definition App (auth : Auth) (m : RouteMatch) : View :=
  match m with
  | RouteHome => Home auth
  | RouteDoctors =>
      ProtectedRoute auth (Some RolePatient) (ScreenView DoctorsListScreen)
  | RouteBook doctorId =>
      ProtectedRoute auth (Some RolePatient)
                     (ScreenView (BookAppointmentScreen doctorId))
  | RouteAppointments =>
      ProtectedRoute auth (Some RolePatient) (ScreenView PatientAppointmentsScreen)
  | RouteDoctorDashboard =>
      ProtectedRoute auth (Some RoleDoctor) (ScreenView DoctorDashboardScreen)
  | RouteCatchAll => NavigateView HrefRoot
  end.

(** Following [<Navigate>] at most [redirects] times; [None] when the
    last view is still a redirect. *)
Fixpoint settle (redirects : nat) (auth : Auth) (m : RouteMatch) : option View :=
  match App auth m with
  | NavigateView to =>
      match redirects with
      | O => None
      | S n => settle n auth (route_of to)
      end
  | v => Some v
  end.


(** The role a screen is registered for. *)
Definition required_role (s : Screen) : Role :=
  match s with
  | DoctorDashboardScreen => RoleDoctor
  | _ => RolePatient
  end.

(* ===================================================================== *)
(** ** More vocabulary                                                   *)
(* ===================================================================== *)

(** A stored time is a slot label followed by [":00"]. *)
Definition on_the_minute (a : Appointment) : Prop :=
  exists currentTime,
    appointment_time a = (DateFns.format_HHmm currentTime ++ ":00")%string.

(** The rows of [l'] continue those of [l]: same ids, patients, doctors,
    dates and times in the same order, possibly more rows at the end. *)
Fixpoint continues (l l' : list Appointment) : Prop :=
  match l, l' with
  | [], _ => True
  | a :: rest, a' :: rest' => same_but_status a a' /\ continues rest rest'
  | _ :: _, [] => False
  end.

(** ASCII lower case, one function that [toLowerCase] agrees with on
    ASCII text. *)
Definition ascii_lower (c : ascii) : ascii :=
  let n := nat_of_ascii c in
  if (Nat.leb 65 n && Nat.leb n 90)%bool then ascii_of_nat (n + 32) else c.

Fixpoint lower_ascii (s : string) : string :=
  match s with
  | EmptyString => EmptyString
  | String c rest => String (ascii_lower c) (lower_ascii rest)
  end.

(** Does the label of minute [m] followed by [":00"] read back as [m]? *)
Definition seconds_read_back (m : Z) : bool :=
  match DateFns.parse_time (label m ++ ":00")%string with
  | Some v => v =? m * DateFns.msMinute
  | None => false
  end.

(* ===================================================================== *)
(** ** The migration's policies in force                                 *)
(* ===================================================================== *)

Inductive Table := TProfiles | TDoctors | TDoctorSchedules | TAppointments.

Inductive Command := Select | Insert | Update.

Definition Table_eqb (a b : Table) : bool :=
  match a, b with
  | TProfiles, TProfiles | TDoctors, TDoctors
  | TDoctorSchedules, TDoctorSchedules | TAppointments, TAppointments => true
  | _, _ => false
  end.

(** The tables read by the sub-queries of the policies that apply to a
    command on a table (a [FOR ALL] policy applies to every command):
    - [profiles]: "Admins can read all profiles", a SELECT policy, reads
      [profiles];
    - [doctors]: "Admins can manage all doctors" reads [profiles];
    - [doctor_schedules]: both policies read [doctors];
    - [appointments]: "Admins can manage all appointments" reads
      [profiles], the two doctor policies read [doctors].
    The components at hand send no INSERT or UPDATE on [profiles]. *)
Definition policy_reads (t : Table) (c : Command) : list Table :=
  match t, c with
  | TProfiles, Select => [TProfiles]
  | TProfiles, _ => []
  | TDoctors, _ => [TProfiles]
  | TDoctorSchedules, _ => [TDoctors]
  | TAppointments, Insert => [TProfiles]
  | TAppointments, _ => [TDoctors; TProfiles]
  end.

(** Expanding the policies of a statement: each table read by a policy
    is read under its own SELECT policies, which are expanded in turn.
    PostgreSQL gives up with "infinite recursion detected in policy" when
    a table comes up while its own policies are being expanded ([active]).
    [depth] bounds the nesting; four tables need no more than five. *)
Fixpoint recursion_detected (depth : nat) (active : list Table) (t : Table)
         (c : Command) : bool :=
  if existsb (Table_eqb t) active then true
  else
    match depth with
    | O => false
    | S depth =>
        existsb (fun t' => recursion_detected depth (t :: active) t' Select)
                (policy_reads t c)
    end.

(** Is a statement turned down while its policies are expanded? *)
Definition refused (t : Table) (c : Command) : bool :=
  recursion_detected 5 [] t c.

(** The error the client gets for a statement the database turns down:
    the database's 42P17 when its answer arrives, the transport's error
    when it does not. *)
Definition client_error (net : Transport) : string :=
  match net with
  | Answered => "42P17"
  | Failed e | Unanswered e => e
  end.

(** What the policies of the migration make of a request for command [c]
    on table [t]: a statement that is turned down is not run. *)
Definition under_policies (t : Table) (c : Command) (net : Transport) : Transport :=
  if refused t c then Failed (client_error net) else net.

(** An action as the deployed application performs it: every request
    goes through the policies of the table it addresses. *)
Definition as_deployed (act : Action) : Action :=
  match act with
  | Book uid doctor selectedDate picked notes new_id ts net =>
      Book uid doctor selectedDate picked notes new_id ts
           (under_policies TAppointments Insert net)
  | OpenAppointments uid net =>
      OpenAppointments uid (under_policies TAppointments Select net)
  | ClickCancel uid appointmentId f now dialog ts net_update net_fetch =>
      ClickCancel uid appointmentId f now dialog ts
                  (under_policies TAppointments Update net_update)
                  (under_policies TAppointments Select net_fetch)
  | OpenDashboard uid now net1 net2 net3 =>
      OpenDashboard uid now
                    (under_policies TDoctors Select net1)
                    (under_policies TAppointments Select net2)
                    (under_policies TAppointments Select net3)
  | ClickDoctor uid appointmentId st ts now net_update net1 net2 net3 =>
      ClickDoctor uid appointmentId st ts now
                  (under_policies TAppointments Update net_update)
                  (under_policies TDoctors Select net1)
                  (under_policies TAppointments Select net2)
                  (under_policies TAppointments Select net3)
  end.


(** [handleBookAppointment] as the deployed application runs it. *)
Definition handleBookAppointment_deployed (net : Transport) (new_id : uuid)
           (ts : Z) (db : Database) (doctor : option Doctor)
           (selectedTime : string) (user : option uuid) (selectedDate : Z)
           (notes : string) : BookingRun :=
  handleBookAppointment (under_policies TAppointments Insert net) new_id ts db
                        doctor selectedTime user selectedDate notes.

(** A world whose store has one row per id and whose patient lists show
    stored rows only; every reachable world is one. *)
Definition settled (w : World) : Prop :=
  unique_ids (appointments (db w)) /\ pages_stored w.

(* ===================================================================== *)
(** ** Facts: the walk of one schedule entry                             *)
(* ===================================================================== *)

Lemma slot_count_stop endTime cur :
  endTime <= cur -> slot_count endTime cur = O.
Proof.
  intros H. unfold slot_count, slot_step.
  assert ((endTime - cur + (30 * 60000 - 1)) / (30 * 60000) <= 0).
  { apply Z.lt_succ_r. apply Z.div_lt_upper_bound; lia. }
  lia.
Qed.

Lemma slot_count_go endTime cur :
  cur < endTime ->
  slot_count endTime cur = S (slot_count endTime (cur + slot_step)).
Proof.
  intros H. unfold slot_count, slot_step.
  replace (endTime - cur + (30 * 60000 - 1))
    with ((endTime - (cur + 30 * 60000) + (30 * 60000 - 1)) + 1 * (30 * 60000))
    by lia.
  rewrite Z.div_add by lia.
  assert (0 <= (endTime - (cur + 30 * 60000) + (30 * 60000 - 1)) / (30 * 60000)).
  { apply Z.div_pos; lia. }
  lia.
Qed.

(** The loop bound, read as a property of the index. *)
Lemma slot_count_spec endTime cur (k : nat) :
  (k < slot_count endTime cur)%nat <-> cur + Z.of_nat k * slot_step < endTime.
Proof.
  revert cur. induction k as [|k IH]; intros cur.
  - destruct (Z_lt_dec cur endTime) as [Hlt|Hge].
    + rewrite (slot_count_go Hlt). simpl. lia.
    + rewrite slot_count_stop by lia. simpl. lia.
  - destruct (Z_lt_dec cur endTime) as [Hlt|Hge].
    + rewrite (slot_count_go Hlt). rewrite <- Nat.succ_lt_mono, IH.
      unfold slot_step. lia.
    + rewrite slot_count_stop by lia. unfold slot_step. lia.
Qed.

Lemma steps_from_seq n cur :
  steps_from n cur = map (fun k => cur + Z.of_nat k * slot_step) (seq 0 n).
Proof.
  revert cur. induction n as [|n IH]; intros cur; [reflexivity|].
  cbn [steps_from seq map]. f_equal; [lia|].
  rewrite IH, <- seq_shift, map_map. apply map_ext. intros k. lia.
Qed.


Lemma format_HHmm_shift d t :
  DateFns.format_HHmm (d * DateFns.msDay + t) = DateFns.format_HHmm t.
Proof.
  unfold DateFns.format_HHmm.
  replace ((d * DateFns.msDay + t) mod DateFns.msDay) with (t mod DateFns.msDay);
    [reflexivity|].
  rewrite Z.add_comm, Z.mod_add; [reflexivity|]. unfold DateFns.msDay. lia.
Qed.

Section SlotLoopFacts.

Variables (selectedDate now : Z) (bookedTimes : list string).

Local Abbreviation slot := (slot_at selectedDate now bookedTimes).
Local Abbreviation loop := (while_loop selectedDate now bookedTimes).
Local Abbreviation body := (forEach_body selectedDate now bookedTimes).
Local Abbreviation build := (build_slots selectedDate now bookedTimes).

Lemma slot_at_shift d t : slot (d * DateFns.msDay + t) = slot t.
Proof. unfold slot_at. rewrite format_HHmm_shift. reflexivity. Qed.

(** The loop appends one slot per walked time, and nothing else. *)
Lemma while_loop_steps endTime currentTime slots :
  loop endTime currentTime slots =
  slots ++ map slot (steps_from (slot_count endTime currentTime) currentTime).
Proof.
  funelim (while_loop selectedDate now bookedTimes endTime currentTime slots).
  - match goal with IH : while_loop _ _ _ _ _ _ = _ ++ _ |- _ =>
      rewrite IH end.
    rewrite (slot_count_go l). cbn [steps_from map].
    rewrite <- app_assoc. reflexivity.
  - rewrite slot_count_stop by lia. cbn. rewrite app_nil_r. reflexivity.
Qed.

Lemma steps_shift n d t :
  map slot (steps_from n (d * DateFns.msDay + t)) = map slot (steps_from n t).
Proof.
  revert t. induction n as [|n IH]; intros t; [reflexivity|].
  cbn [steps_from map]. rewrite slot_at_shift. f_equal.
  rewrite <- Z.add_assoc. apply IH.
Qed.

Lemma forEach_body_entry slots schedule :
  body slots schedule = slots ++ map slot (entry_times schedule).
Proof.
  unfold forEach_body, parse_on_2000_01_01, DateFns.parseISO, entry_times.
  destruct (DateFns.parse_time (start_time schedule)) as [s|];
    destruct (DateFns.parse_time (end_time schedule)) as [e|];
    cbv beta iota; rewrite ?app_nil_r; try reflexivity.
  rewrite while_loop_steps, steps_shift.
  replace (slot_count (DateFns.day_2000_01_01 * DateFns.msDay + e)
                      (DateFns.day_2000_01_01 * DateFns.msDay + s))
    with (slot_count e s); [reflexivity|].
  unfold slot_count. do 2 f_equal. lia.
Qed.



End SlotLoopFacts.

(* ===================================================================== *)
(** ** Facts: reading back what [format] wrote                           *)
(* ===================================================================== *)

Module DateFnsFacts.
Import DateFns.

Lemma minute_of_day_range d : 0 <= minute_of_day d < 1440.
Proof.
  unfold minute_of_day, msDay, msMinute.
  pose proof (Z.mod_pos_bound d 86400000 ltac:(lia)) as Hb.
  split.
  - apply Z.div_pos; lia.
  - apply Z.div_lt_upper_bound; lia.
Qed.

Lemma format_HHmm_label d : format_HHmm d = label (minute_of_day d).
Proof.
  unfold format_HHmm, label, minute_of_day, msHour, msMinute. cbv zeta.
  replace 3600000 with (60000 * 60) by reflexivity.
  rewrite <- Z.div_div by lia. reflexivity.
Qed.










End DateFnsFacts.

(* ===================================================================== *)
(** ** Facts: order of the emitted slots                                 *)
(* ===================================================================== *)

Section SlotOrder.

Variables (selectedDate now : Z) (bookedTimes : list string).

Local Abbreviation slot := (slot_at selectedDate now bookedTimes).











End SlotOrder.

Lemma filter_none (A : Type) (f : A -> bool) (l : list A) :
  (forall x, In x l -> f x = false) -> filter f l = [].
Proof.
  induction l as [|x rest IH]; intros H; [reflexivity|]. cbn.
  rewrite (H x (or_introl eq_refl)). apply IH. intros y Hy. apply H. right. assumption.
Qed.

(* ===================================================================== *)
(** ** Facts: what an action does to the database                        *)
(* ===================================================================== *)

Lemma same_booking_key a b : same_booking a b = true <-> booking_key a = booking_key b.
Proof.
  unfold same_booking, booking_key.
  rewrite !andb_true_iff, !String.eqb_eq, Z.eqb_eq. split.
  - intros [[-> ->] ->]. reflexivity.
  - intros [= -> -> ->]. auto.
Qed.

Lemma existsb_false_not_in (A B : Type) (f : A -> B) (p : A -> bool) (k : B)
      (l : list A) :
  (forall a, f a = k -> p a = true) ->
  existsb p l = false -> ~ In k (map f l).
Proof.
  intros Hp Hex Hin. apply in_map_iff in Hin. destruct Hin as (a & Hk & Ha).
  assert (existsb p l = true) by (apply existsb_exists; eauto).
  congruence.
Qed.

Lemma insert_row_cases db uid row db' :
  insert_row db uid row = Data db' ->
  db' = set_appointments db (appointments db ++ [row]) /\
  ~ In (appointment_pk row) (map appointment_pk (appointments db)) /\
  ~ In (booking_key row) (map booking_key (appointments db)).
Proof.
  unfold insert_row.
  destruct (negb (Policy.appointments_insert db uid row)); [discriminate|].
  destruct (existsb (fun a => String.eqb (appointment_pk a) (appointment_pk row))
                    (appointments db)) eqn:Epk; [discriminate|].
  destruct (existsb (same_booking row) (appointments db)) eqn:Ekey; [discriminate|].
  destruct (negb (references_hold db row)); [discriminate|].
  intros [= <-]. split; [reflexivity|]. split.
  - eapply existsb_false_not_in; [|exact Epk].
    intros a Ha. cbv beta. rewrite Ha. apply String.eqb_refl.
  - eapply existsb_false_not_in; [|exact Ekey].
    intros a Ha. apply same_booking_key. symmetry. assumption.
Qed.

(** The three ways an insert request can end: the store untouched and an
    error; the row stored and the answer delivered; the row stored and
    the answer lost. *)
Lemma insert_appointment_cases net new_id ts db uid p :
  (exists e, insert_appointment net new_id ts db uid p = (db, Error e)) \/
  (exists db', insert_row db uid (new_row new_id ts p) = Data db' /\
               (insert_appointment net new_id ts db uid p = (db', Data tt) /\
                net = Answered \/
                exists e, insert_appointment net new_id ts db uid p = (db', Error e) /\
                          net = Unanswered e)).
Proof.
  unfold insert_appointment.
  destruct net as [|e|e]; [| left; eauto |];
    destruct (insert_row db uid (new_row new_id ts p)) as [db'|e'];
    try (left; eauto; fail);
    right; exists db'; split; try reflexivity; [left|right]; eauto.
Qed.

(** One run of the handler once the guard has passed. *)
Lemma handleBookAppointment_sends net new_id ts db doctor selectedTime user
      selectedDate notes :
  String.eqb selectedTime "" = false ->
  let payload := mkInsert user (doctor_pk doctor) (DateFns.format_date selectedDate)
                          (selectedTime ++ ":00")%string notes pending in
  handleBookAppointment net new_id ts db (Some doctor) selectedTime (Some user)
                        selectedDate notes
  = mkBookingRun [payload]
      (fst (insert_appointment net new_id ts db user payload))
      [match snd (insert_appointment net new_id ts db user payload) with
       | Data _ => Navigate "/appointments" booked_message
       | Error _ => Alert failed_message
       end].
Proof.
  intros Hsel. cbv zeta. unfold handleBookAppointment. rewrite Hsel.
  match goal with |- context [insert_appointment ?n ?i ?t ?d ?u ?p] =>
    destruct (insert_appointment n i t d u p) as [db' [u0|e]] end; reflexivity.
Qed.

(** What a booking can do to the store: nothing, or add one row that
    clashes with no stored id and no stored booking. *)
Lemma book_cases net new_id ts db doctor selectedTime user selectedDate notes :
  let db' := book_db (handleBookAppointment net new_id ts db doctor selectedTime
                                            user selectedDate notes) in
  db' = db \/
  exists row, db' = set_appointments db (appointments db ++ [row]) /\
              ~ In (appointment_pk row) (map appointment_pk (appointments db)) /\
              ~ In (booking_key row) (map booking_key (appointments db)).
Proof.
  cbv zeta.
  destruct doctor as [doctor|]; [|left; reflexivity].
  destruct user as [user|]; [|left; reflexivity].
  destruct (String.eqb selectedTime "") eqn:Hsel;
    [unfold handleBookAppointment; rewrite Hsel; left; reflexivity|].
  rewrite (@handleBookAppointment_sends net new_id ts db doctor selectedTime user
             selectedDate notes Hsel).
  cbn [book_db].
  match goal with |- context [insert_appointment ?n ?i ?t ?d ?u ?p] =>
    destruct (insert_appointment_cases n i t d u p)
      as [[e E]|(db' & Hrow & [[E _]|(e & E & _)])] end;
    rewrite E; cbn [fst]; [left; reflexivity| |];
    right; eexists; eapply insert_row_cases; exact Hrow.
Qed.

Lemma book_step net new_id ts db doctor selectedTime user selectedDate notes :
  db_step db (book_db (handleBookAppointment net new_id ts db doctor selectedTime
                                             user selectedDate notes)).
Proof.
  destruct (book_cases net new_id ts db doctor selectedTime user selectedDate notes)
    as [H|(row & H & Hpk & Hkey)].
  - apply step_same. exact H.
  - apply step_insert with row; assumption.
Qed.

Lemma update_status_cases net ts db uid appointmentId st :
  fst (update_status net ts db uid appointmentId st) = db \/
  ((forall e, net <> Failed e) /\
   fst (update_status net ts db uid appointmentId st)
   = set_appointments db (map (touch db uid appointmentId st ts) (appointments db))).
Proof.
  unfold update_status. destruct net; cbn [fst]; auto;
    (right; split; [intros e'; discriminate|reflexivity]).
Qed.

Lemma cancelAppointment_db dialog n1 n2 ts db uid appointmentId shown :
  fst (cancelAppointment dialog n1 n2 ts db uid appointmentId shown)
  = if dialog then fst (update_status n1 ts db uid appointmentId cancelled) else db.
Proof.
  unfold cancelAppointment. destruct dialog; cbn [negb]; [|reflexivity].
  destruct (update_status n1 ts db uid appointmentId cancelled) as [db' [u|e]];
    reflexivity.
Qed.

Lemma updateAppointmentStatus_db n0 n1 n2 n3 ts now db uid appointmentId st shown :
  fst (updateAppointmentStatus n0 n1 n2 n3 ts now db uid appointmentId st shown)
  = fst (update_status n0 ts db uid appointmentId st).
Proof.
  unfold updateAppointmentStatus.
  destruct (update_status n0 ts db uid appointmentId st) as [db' [u|e]];
    reflexivity.
Qed.

Lemma update_status_step net ts db uid appointmentId st :
  db_step db (fst (update_status net ts db uid appointmentId st)).
Proof.
  destruct (update_status_cases net ts db uid appointmentId st) as [E|[_ E]];
    rewrite E; [apply step_same; reflexivity|eapply step_update; reflexivity].
Qed.

Lemma cancelAppointment_step dialog n1 n2 ts db uid appointmentId shown :
  db_step db (fst (cancelAppointment dialog n1 n2 ts db uid appointmentId shown)).
Proof.
  rewrite cancelAppointment_db. destruct dialog;
    [apply update_status_step|apply step_same; reflexivity].
Qed.

Lemma updateAppointmentStatus_step n0 n1 n2 n3 ts now db uid appointmentId st shown :
  db_step db (fst (updateAppointmentStatus n0 n1 n2 n3 ts now db uid
                                           appointmentId st shown)).
Proof. rewrite updateAppointmentStatus_db. apply update_status_step. Qed.

Lemma exec_step w act : db_step (db w) (db (exec w act)).
Proof.
  destruct act; cbn [exec]; cbv zeta.
  - cbn [db]. apply book_step.
  - apply step_same. reflexivity.
  - destruct (appointments_page_draws (db w) uid f now
                                      (page_of uid (patient_pages w)) &&
              cancel_button f now appointmentId (page_of uid (patient_pages w)));
      [|apply step_same; reflexivity].
    pose proof (cancelAppointment_step dialog net_update net_fetch ts (db w) uid
                  appointmentId (page_of uid (patient_pages w))) as H.
    destruct (cancelAppointment dialog net_update net_fetch ts (db w) uid
                appointmentId (page_of uid (patient_pages w))) as [db' shown'].
    exact H.
  - apply step_same. reflexivity.
  - destruct (doctor_button (db w) uid st appointmentId
                            (page_of uid (doctor_pages w)));
      [|apply step_same; reflexivity].
    pose proof (updateAppointmentStatus_step net_update net1 net2 net3 ts now (db w)
                  uid appointmentId st (page_of uid (doctor_pages w))) as H.
    destruct (updateAppointmentStatus net_update net1 net2 net3 ts now (db w) uid
                appointmentId st (page_of uid (doctor_pages w))) as [db' shown'].
    exact H.
Qed.

Lemma touch_same_but_status db uid appointmentId st ts a :
  same_but_status a (touch db uid appointmentId st ts a).
Proof.
  unfold touch, same_but_status.
  destruct (String.eqb (appointment_pk a) appointmentId &&
            Policy.appointments_update db uid a); cbn; repeat split; reflexivity.
Qed.

Lemma touch_pk db uid appointmentId st ts a :
  appointment_pk (touch db uid appointmentId st ts a) = appointment_pk a.
Proof. apply (touch_same_but_status db uid appointmentId st ts a). Qed.

Lemma touch_key db uid appointmentId st ts a :
  booking_key (touch db uid appointmentId st ts a) = booking_key a.
Proof.
  destruct (touch_same_but_status db uid appointmentId st ts a)
    as (_ & _ & Hd & Hdate & Htime & _).
  unfold booking_key. congruence.
Qed.

Lemma touch_other db uid appointmentId st ts a :
  appointment_pk a <> appointmentId -> touch db uid appointmentId st ts a = a.
Proof.
  intros H. unfold touch. apply String.eqb_neq in H. rewrite H. reflexivity.
Qed.

Lemma NoDup_snoc (A : Type) (l : list A) (x : A) :
  NoDup l -> ~ In x l -> NoDup (l ++ [x]).
Proof.
  intros Hl Hx. induction Hl as [|y l Hy Hl IH]; cbn.
  - constructor; [intros []|constructor].
  - constructor.
    + rewrite in_app_iff. intros [H|[H|[]]]; [contradiction|].
      subst. apply Hx. left. reflexivity.
    + apply IH. intros H. apply Hx. right. assumption.
Qed.

Lemma step_unique_ids db db' :
  db_step db db' -> unique_ids (appointments db) -> unique_ids (appointments db').
Proof.
  unfold unique_ids. intros [->|row -> Hpk _|uid id st ts ->] H; cbn.
  - assumption.
  - rewrite map_app. apply NoDup_snoc; assumption.
  - rewrite map_map.
    rewrite (map_ext _ appointment_pk (touch_pk db uid id st ts)). assumption.
Qed.

Lemma step_unique_bookings db db' :
  db_step db db' ->
  unique_bookings (appointments db) -> unique_bookings (appointments db').
Proof.
  unfold unique_bookings. intros [->|row -> _ Hkey|uid id st ts ->] H; cbn.
  - assumption.
  - rewrite map_app. apply NoDup_snoc; assumption.
  - rewrite map_map.
    rewrite (map_ext _ booking_key (touch_key db uid id st ts)). assumption.
Qed.

Lemma run_snoc acts act w : run (acts ++ [act]) w = exec (run acts w) act.
Proof. unfold run. rewrite fold_left_app. reflexivity. Qed.

(** Induction over the worlds the system can be in. *)
Lemma reachable_ind (P : World -> Prop) :
  (forall ps ds ss, P (initial ps ds ss)) ->
  (forall w act, reachable w -> P w -> P (exec w act)) ->
  forall w, reachable w -> P w.
Proof.
  intros Hinit Hstep w (ps & ds & ss & acts & ->).
  induction acts as [|act acts IH] using rev_ind.
  - apply Hinit.
  - rewrite run_snoc. apply Hstep; [|assumption].
    exists ps, ds, ss, acts. reflexivity.
Qed.

Lemma reachable_unique_ids w : reachable w -> unique_ids (appointments (db w)).
Proof.
  intros H. induction H as [ps ds ss|w act _ IH] using reachable_ind.
  - constructor.
  - eapply step_unique_ids; [apply exec_step|assumption].
Qed.

Lemma reachable_unique_bookings w :
  reachable w -> unique_bookings (appointments (db w)).
Proof.
  intros H. induction H as [ps ds ss|w act _ IH] using reachable_ind.
  - constructor.
  - eapply step_unique_bookings; [apply exec_step|assumption].
Qed.

Lemma NoDup_map_filter_le1 (A B : Type) (f : A -> B) (p : A -> bool) (k : B)
      (l : list A) :
  (forall a, p a = true -> f a = k) ->
  NoDup (map f l) -> (List.length (filter p l) <= 1)%nat.
Proof.
  intros Hp. induction l as [|a l IH]; cbn; intros H; [lia|].
  inversion H as [|? ? Hnotin Hl]; subst.
  destruct (p a) eqn:Ea; [|apply IH; assumption].
  cbn. rewrite filter_none; [cbn; lia|].
  intros x Hx. destruct (p x) eqn:Ex; [|reflexivity].
  exfalso. apply Hnotin. rewrite (Hp a Ea), <- (Hp x Ex).
  apply in_map. assumption.
Qed.

Lemma booked_at_key D d t a : booked_at D d t a = true -> booking_key a = (D, d, t).
Proof.
  unfold booked_at, booking_key.
  rewrite !andb_true_iff, !String.eqb_eq, Z.eqb_eq.
  intros [[-> ->] ->]. reflexivity.
Qed.

(* ===================================================================== *)
(** ** The appointments store                                            *)
(* ===================================================================== *)

(** C2.  In every state the system can reach from a store without
    appointments, whatever bookings and status changes were made, each
    (doctor, date, time) has at most one appointment row. *)
Theorem one_appointment_per_slot :
  forall (ps : list Profile) (ds : list Doctor) (ss : list Schedule)
         (acts : list Action) (D : uuid) (d : Z) (t : string),
    (List.length (filter (booked_at D d t)
                         (appointments (db (run acts (initial ps ds ss)))))
     <= 1)%nat.
Proof.
  intros ps ds ss acts D d t.
  apply NoDup_map_filter_le1 with (f := booking_key) (k := (D, d, t)).
  - intros a. apply booked_at_key.
  - apply reachable_unique_bookings. exists ps, ds, ss, acts. reflexivity.
Qed.

Lemma only_status_touched_refl appointmentId db :
  only_status_touched appointmentId db db.
Proof.
  repeat split. induction (appointments db) as [|a l IH]; constructor;
    [|exact IH].
  unfold same_but_status. repeat split; reflexivity.
Qed.

Lemma update_status_touches net ts db uid appointmentId st :
  only_status_touched appointmentId db
    (fst (update_status net ts db uid appointmentId st)).
Proof.
  destruct (update_status_cases net ts db uid appointmentId st) as [E|[_ E]];
    rewrite E; clear E; [apply only_status_touched_refl|].
  repeat split. cbn [appointments set_appointments].
  induction (appointments db) as [|a l IH]; cbn [map]; constructor; [|exact IH].
  split; [apply touch_same_but_status|apply touch_other].
Qed.

(** C9.  [updateAppointmentStatus] and [cancelAppointment] change nothing
    in the database but the status and the update stamp of the rows with
    the id they are given: profiles, doctors and schedules are the same
    tables, the appointment rows are the same rows in the same order with
    the same id, patient, doctor, date, time, notes and creation stamp, and
    a row with another id is the same row. *)
Theorem status_update_touches_status_only :
  (forall (net_update net1 net2 net3 : Transport) (ts now : Z) (db : Database)
          (uid appointmentId : uuid) (st : Status) (shown : list Appointment),
      only_status_touched appointmentId db
        (fst (updateAppointmentStatus net_update net1 net2 net3 ts now db uid
                                      appointmentId st shown))) /\
  (forall (dialog : bool) (net_update net_fetch : Transport) (ts : Z)
          (db : Database) (uid appointmentId : uuid) (shown : list Appointment),
      only_status_touched appointmentId db
        (fst (cancelAppointment dialog net_update net_fetch ts db uid
                                appointmentId shown))).
Proof.
  split.
  - intros net_update net1 net2 net3 ts now d uid appointmentId st shown.
    rewrite updateAppointmentStatus_db. apply update_status_touches.
  - intros dialog net_update net_fetch ts d uid appointmentId shown.
    rewrite cancelAppointment_db.
    destruct dialog; [apply update_status_touches|apply only_status_touched_refl].
Qed.

(* ===================================================================== *)
(** ** Facts: lists on screen and rows in store                          *)
(* ===================================================================== *)

Lemma Status_eqb_eq a b : Status_eqb a b = true <-> a = b.
Proof. destruct a, b; cbn; split; congruence. Qed.

Lemma NoDup_map_inj (A B : Type) (f : A -> B) (l : list A) (x y : A) :
  NoDup (map f l) -> In x l -> In y l -> f x = f y -> x = y.
Proof.
  induction l as [|a l IH]; cbn; intros H Hx Hy E; [contradiction|].
  inversion H as [|? ? Hnotin Hl]; subst.
  destruct Hx as [->|Hx], Hy as [->|Hy].
  - reflexivity.
  - exfalso. apply Hnotin. rewrite E. apply in_map. assumption.
  - exfalso. apply Hnotin. rewrite <- E. apply in_map. assumption.
  - apply IH; assumption.
Qed.

Lemma in_insert_sorted a r l : In r (insert_sorted a l) -> r = a \/ In r l.
Proof.
  induction l as [|b l IH]; cbn.
  - intros [<-|[]]. left. reflexivity.
  - destruct (appointment_leb a b); cbn.
    + intros [<-|H]; [left; reflexivity|right; assumption].
    + intros [<-|H]; [right; left; reflexivity|].
      destruct (IH H) as [->|H']; [left; reflexivity|right; right; assumption].
Qed.

Lemma in_order_by_date_time r l : In r (order_by_date_time l) -> In r l.
Proof.
  induction l as [|a l IH]; cbn; [trivial|]. intros H.
  apply in_insert_sorted in H. destruct H as [->|H]; [left; reflexivity|].
  right. apply IH. assumption.
Qed.

Lemma page_of_in uid pages r :
  In r (page_of uid pages) -> exists rows, In (uid, rows) pages /\ In r rows.
Proof.
  unfold page_of.
  destruct (find (fun p => String.eqb (fst p) uid) pages) as [[u rows]|] eqn:E;
    [|intros []].
  apply find_some in E. destruct E as [Hin Hu]. cbn in Hu.
  apply String.eqb_eq in Hu. subst u. intros H. exists rows. auto.
Qed.

Lemma stored_mono r db db' : db_step db db' -> stored_as r db -> stored_as r db'.
Proof.
  intros [->|row -> _ _|uid id st ts ->] (s & Hin & Hpk & Hd & Ht).
  - exists s. auto.
  - exists s. cbn. rewrite in_app_iff. auto.
  - exists (touch db uid id st ts s). cbn.
    destruct (touch_same_but_status db uid id st ts s)
      as (Epk & _ & _ & Edate & Etime & _).
    split; [apply in_map; assumption|]. repeat split; congruence.
Qed.

Lemma fetched_rows_stored net db uid shown r :
  (In r shown -> stored_as r db) ->
  In r (fetchAppointments net db uid shown) -> stored_as r db.
Proof.
  intros Hshown. unfold fetchAppointments, select_patient_appointments, over.
  destruct net; [|exact Hshown|exact Hshown]. intros H.
  apply in_order_by_date_time, filter_In in H. destruct H as [H _].
  exists r. auto.
Qed.

Lemma cancelAppointment_rows dialog n1 n2 ts db uid appointmentId shown r :
  In r (snd (cancelAppointment dialog n1 n2 ts db uid appointmentId shown)) ->
  In r shown \/
  In r (fetchAppointments n2
          (fst (cancelAppointment dialog n1 n2 ts db uid appointmentId shown))
          uid shown).
Proof.
  unfold cancelAppointment. destruct dialog; cbn [negb]; [|left; assumption].
  destruct (update_status n1 ts db uid appointmentId cancelled) as [db' [u|e]];
    cbn [fst snd]; auto.
Qed.

Lemma exec_pages_stored w act : pages_stored w -> pages_stored (exec w act).
Proof.
  intros Hw. pose proof (exec_step w act) as Hstep.
  assert (Hshown : forall uid r,
             In r (page_of uid (patient_pages w)) -> stored_as r (db w)).
  { intros uid r H. apply page_of_in in H. destruct H as (rows & H1 & H2).
    eapply Hw; eassumption. }
  assert (Hold : forall uid rows r,
             In (uid, rows) (patient_pages w) -> In r rows ->
             stored_as r (db (exec w act))).
  { intros uid rows r H1 H2. eapply stored_mono; [exact Hstep|].
    eapply Hw; eassumption. }
  destruct act; cbn [exec] in *; cbv zeta in *.
  - exact Hold.
  - intros u rows r [[= <- <-]|Hin] Hr; [|eapply Hold; eassumption].
    cbn [db]. eapply fetched_rows_stored; [|exact Hr]. apply Hshown.
  - destruct (appointments_page_draws (db w) uid f now
                                      (page_of uid (patient_pages w)) &&
              cancel_button f now appointmentId (page_of uid (patient_pages w)));
      [|exact Hw].
    pose proof (@cancelAppointment_rows dialog net_update net_fetch ts (db w) uid
                  appointmentId (page_of uid (patient_pages w))) as Hrows.
    destruct (cancelAppointment dialog net_update net_fetch ts (db w) uid
                appointmentId (page_of uid (patient_pages w))) as [db' shown'].
    cbn [db patient_pages fst snd] in *.
    intros u rows r [[= <- <-]|Hin] Hr; [|eapply Hold; eassumption].
    assert (Hkeep : In r (page_of uid (patient_pages w)) -> stored_as r db').
    { intros Hs. eapply stored_mono; [exact Hstep|]. apply (Hshown uid). exact Hs. }
    destruct (Hrows r Hr) as [Hs|Hf]; [apply Hkeep; exact Hs|].
    eapply fetched_rows_stored; [|exact Hf]. exact Hkeep.
  - exact Hold.
  - destruct (doctor_button (db w) uid st appointmentId
                            (page_of uid (doctor_pages w)));
      [|exact Hw].
    destruct (updateAppointmentStatus net_update net1 net2 net3 ts now (db w) uid
                appointmentId st (page_of uid (doctor_pages w))) as [db' shown'].
    exact Hold.
Qed.

Lemma reachable_pages_stored w : reachable w -> pages_stored w.
Proof.
  intros H. induction H as [ps ds ss|w act _ IH] using reachable_ind.
  - intros uid rows r [].
  - apply exec_pages_stored. assumption.
Qed.

Lemma reachable_settled w : reachable w -> settled w.
Proof.
  intros H. split; [apply reachable_unique_ids|apply reachable_pages_stored];
    exact H.
Qed.

Lemma click_cancel_cases w uid appointmentId f now dialog ts net_update net_fetch :
  let w' := exec w (ClickCancel uid appointmentId f now dialog ts
                                net_update net_fetch) in
  db w' = db w \/
  (cancel_button f now appointmentId (page_of uid (patient_pages w)) = true /\
   (forall e, net_update <> Failed e) /\
   db w' = set_appointments (db w)
             (map (touch (db w) uid appointmentId cancelled ts)
                  (appointments (db w)))).
Proof.
  cbv zeta. cbn [exec]. cbv zeta.
  destruct (appointments_page_draws (db w) uid f now
                                    (page_of uid (patient_pages w)));
    cbn [andb]; [|left; reflexivity].
  destruct (cancel_button f now appointmentId (page_of uid (patient_pages w)));
    [|left; reflexivity].
  pose proof (cancelAppointment_db dialog net_update net_fetch ts (db w) uid
                appointmentId (page_of uid (patient_pages w))) as E.
  destruct (cancelAppointment dialog net_update net_fetch ts (db w) uid
              appointmentId (page_of uid (patient_pages w))) as [db' shown'].
  cbn [fst db] in *. rewrite E. destruct dialog; [|left; reflexivity].
  destruct (update_status_cases net_update ts (db w) uid appointmentId cancelled)
    as [E'|[Hnet E']]; rewrite E'; [left; reflexivity|].
  right. split; [reflexivity|]. split; [exact Hnet|reflexivity].
Qed.

Lemma click_doctor_cases w uid appointmentId st ts now net_update net1 net2 net3 :
  let w' := exec w (ClickDoctor uid appointmentId st ts now
                                net_update net1 net2 net3) in
  db w' = db w \/
  (doctor_button (db w) uid st appointmentId (page_of uid (doctor_pages w)) = true /\
   (forall e, net_update <> Failed e) /\
   db w' = set_appointments (db w)
             (map (touch (db w) uid appointmentId st ts) (appointments (db w)))).
Proof.
  cbv zeta. cbn [exec]. cbv zeta.
  destruct (doctor_button (db w) uid st appointmentId (page_of uid (doctor_pages w)));
    [|left; reflexivity].
  pose proof (updateAppointmentStatus_db net_update net1 net2 net3 ts now (db w) uid
                appointmentId st (page_of uid (doctor_pages w))) as E.
  destruct (updateAppointmentStatus net_update net1 net2 net3 ts now (db w) uid
              appointmentId st (page_of uid (doctor_pages w))) as [db' shown'].
  cbn [fst db] in *. rewrite E.
  destruct (update_status_cases net_update ts (db w) uid appointmentId st)
    as [E'|[Hnet E']]; rewrite E'; [left; reflexivity|].
  right. split; [reflexivity|]. split; [exact Hnet|reflexivity].
Qed.

(* ===================================================================== *)
(** ** Facts: the policies of the migration                              *)
(* ===================================================================== *)

(** Every statement on [doctors], [doctor_schedules] and [appointments],
    and every SELECT on [profiles], is turned down while its policies are
    expanded. *)
Lemma refused_statements t c :
  (t = TProfiles -> c = Select) -> refused t c = true.
Proof.
  destruct t, c; intros H; try reflexivity;
    discriminate (H eq_refl).
Qed.

Lemma under_policies_refused t c net :
  (t = TProfiles -> c = Select) ->
  under_policies t c net = Failed (client_error net).
Proof.
  intros H. unfold under_policies. rewrite (refused_statements H). reflexivity.
Qed.



(* ===================================================================== *)
(** ** The slot generator                                                *)
(* ===================================================================== *)

(** The walk of one schedule entry.  For an entry whose start and end
    times read as [s] and [e], the loop of [generateTimeSlots] appends
    exactly the slots at [s], [s + 30min], [s + 60min], ... for the times
    strictly below [e], in that order and nothing else: the index [k] is
    walked if and only if [s + k * 30min < e], so no slot at [e] itself is
    appended, and each slot carries the HH:mm label of its time. *)
Lemma entry_walk :
  forall (selectedDate now : Z) (bookedTimes : list string)
         (slots : list TimeSlot) (schedule : Schedule) (s e : Z),
    DateFns.parse_time (start_time schedule) = Some s ->
    DateFns.parse_time (end_time schedule) = Some e ->
    forEach_body selectedDate now bookedTimes slots schedule =
      slots ++ map (fun k => slot_at selectedDate now bookedTimes
                                     (s + Z.of_nat k * slot_step))
                   (seq 0 (slot_count e s))
    /\ (forall k : nat,
           (k < slot_count e s)%nat <-> s + Z.of_nat k * slot_step < e)
    /\ (forall t, time (slot_at selectedDate now bookedTimes t)
                  = DateFns.format_HHmm t).
Proof.
  intros selectedDate now bookedTimes slots schedule s e Hs He.
  split; [|split].
  - rewrite forEach_body_entry. unfold entry_times. rewrite Hs, He.
    rewrite steps_from_seq, map_map. reflexivity.
  - intros k. apply slot_count_spec.
  - intros t. reflexivity.
Qed.

(** The loop neither sorts nor removes duplicates: fed two overlapping
    rows, 09:00-10:30 and 09:30-10:00, it gives 09:00, 09:30, 10:00,
    09:30. *)
Lemma overlapping_rows_keep_their_order :
  build_slots Clinic.monday Clinic.sunday_noon []
              [Clinic.long_window; Clinic.short_window]
  = [mkTimeSlot "09:00" true; mkTimeSlot "09:30" true;
     mkTimeSlot "10:00" true; mkTimeSlot "09:30" true] /\
  ascending (build_slots Clinic.monday Clinic.sunday_noon []
                         [Clinic.long_window; Clinic.short_window]) = false.
Proof. split; vm_compute; reflexivity. Qed.





(** Were the two queries run as the row-by-row policies allow, a
    patient would be given no appointment of another patient: on the
    store that holds Alice's booking of Monday 09:30, the slots generated
    for Bob would offer 09:30, those generated for Alice would not. *)
Lemma row_policies_would_hide_bookings :
  generateTimeSlots Answered Answered Clinic.store_with_booking "p-bob"%string
                    (Some Clinic.grey) Clinic.monday Clinic.sunday_noon
  = Generated [mkTimeSlot "09:00" true; mkTimeSlot "09:30" true] /\
  generateTimeSlots Answered Answered Clinic.store_with_booking "p-alice"%string
                    (Some Clinic.grey) Clinic.monday Clinic.sunday_noon
  = Generated [mkTimeSlot "09:00" true; mkTimeSlot "09:30" false].
Proof. split; vm_compute; reflexivity. Qed.





(* ===================================================================== *)
(** ** Booking                                                           *)
(* ===================================================================== *)

Lemma clash_is_refused db uid row :
  existsb (same_booking row) (appointments db) = true ->
  exists e, insert_row db uid row = Error e.
Proof.
  intros Hclash. unfold insert_row. rewrite Hclash.
  repeat match goal with
         | |- exists _, (if ?c then _ else _) = _ => destruct c; eauto
         end.
Qed.

(** C7.  With a doctor loaded, a user signed in and a time selected,
    [handleBookAppointment] sends exactly one insert: of a row with status
    pending, the caller as patient, and the doctor, date, time and note of
    the form.  It shows exactly one message.  When it reports success the
    store is the old one with that row added at the end, so the row is
    stored, pending; the store never changes in any other way.  When it
    reports failure after the statement was not run or was turned down by
    the database (a clash with a stored row for the same doctor, date and
    time is turned down), the store is as before; only an insert that was
    run and accepted while its answer got lost leaves the row behind the
    failure message.  With the policies of the migration in force the
    insert is never run: every booking ends with the one generic failure
    message, nothing stored, and nothing sent again. *)
Theorem booking_sends_one_insert :
  forall (net : Transport) (new_id : uuid) (ts : Z) (db : Database)
         (doctor : Doctor) (selectedTime : string) (user : uuid)
         (selectedDate : Z) (notes : string),
    String.eqb selectedTime "" = false ->
    let payload := mkInsert user (doctor_pk doctor)
                            (DateFns.format_date selectedDate)
                            (selectedTime ++ ":00")%string notes pending in
    let row := new_row new_id ts payload in
    let r := handleBookAppointment net new_id ts db (Some doctor) selectedTime
                                   (Some user) selectedDate notes in
    let deployed :=
      handleBookAppointment_deployed net new_id ts db (Some doctor) selectedTime
                                     (Some user) selectedDate notes in
    book_requests r = [payload] /\
    (status row = pending /\ patient_id row = user /\
     doctor_id row = doctor_pk doctor /\
     appointment_date row = DateFns.format_date selectedDate /\
     appointment_time row = (selectedTime ++ ":00")%string /\
     patient_notes row = Some notes) /\
    (book_ui r = [Navigate "/appointments" booked_message] \/
     book_ui r = [Alert failed_message]) /\
    (book_ui r = [Navigate "/appointments" booked_message] ->
     appointments (book_db r) = appointments db ++ [row] /\
     In row (appointments (book_db r)) /\
     profiles (book_db r) = profiles db /\ doctors (book_db r) = doctors db /\
     doctor_schedules (book_db r) = doctor_schedules db) /\
    (book_db r = db \/
     book_db r = set_appointments db (appointments db ++ [row])) /\
    ((forall e, net <> Unanswered e) -> book_ui r = [Alert failed_message] ->
     book_db r = db) /\
    (existsb (same_booking row) (appointments db) = true ->
     book_db r = db /\ book_ui r = [Alert failed_message]) /\
    (book_requests deployed = [payload] /\
     book_ui deployed = [Alert failed_message] /\
     book_db deployed = db).
Proof.
  intros net new_id ts d doctor selectedTime user selectedDate notes Hsel
         payload row r deployed.
  assert (Hr : r = mkBookingRun [payload]
                     (fst (insert_appointment net new_id ts d user payload))
                     [match snd (insert_appointment net new_id ts d user payload) with
                      | Data _ => Navigate "/appointments" booked_message
                      | Error _ => Alert failed_message
                      end]).
  { subst r. apply (@handleBookAppointment_sends net new_id ts d doctor selectedTime
                      user selectedDate notes Hsel). }
  assert (Hd : deployed = mkBookingRun [payload] d [Alert failed_message]).
  { subst deployed. unfold handleBookAppointment_deployed.
    rewrite (@handleBookAppointment_sends _ new_id ts d doctor selectedTime
               user selectedDate notes Hsel).
    rewrite under_policies_refused by discriminate. reflexivity. }
  fold payload in Hr.
  destruct (insert_appointment_cases net new_id ts d user payload)
    as [[e E]|(db' & Hrow & [[E Hnet]|(e & E & Hnet)])];
    rewrite E in Hr; cbn [fst snd] in Hr; rewrite Hr, Hd;
    cbn [book_requests book_ui book_db];
    (split; [reflexivity|]);
    (split; [repeat split|]);
    (split; [auto|]).
  - split; [discriminate|]. split; [left; reflexivity|].
    split; [reflexivity|]. split; [split; reflexivity|repeat split].
  - apply insert_row_cases in Hrow as Hcases. destruct Hcases as [-> _].
    fold row. cbn [appointments set_appointments profiles doctors doctor_schedules].
    split.
    { intros _. split; [reflexivity|]. split; [|repeat split].
      apply in_app_iff. right. left. reflexivity. }
    split; [right; reflexivity|].
    split; [discriminate|]. split; [|repeat split].
    intros Hclash. destruct (clash_is_refused d user row Hclash) as [e' E'].
    fold row in Hrow. rewrite E' in Hrow. discriminate Hrow.
  - apply insert_row_cases in Hrow as Hcases. destruct Hcases as [-> _].
    fold row.
    split; [discriminate|]. split; [right; reflexivity|].
    split; [intros Hnot; exfalso; exact (Hnot e Hnet)|].
    split; [|repeat split].
    intros Hclash. destruct (clash_is_refused d user row Hclash) as [e' E'].
    fold row in Hrow. rewrite E' in Hrow. discriminate Hrow.
Qed.

(** Alice books Monday 09:30 with Dr Grey: as deployed the one insert is
    turned down and she gets the failure message; had the database run
    it, the row would be the one stored. *)
Lemma booking_sends_one_insert_witness :
  (book_requests
     (handleBookAppointment_deployed Answered "a-1"%string Clinic.sunday_noon
        (db Clinic.opening) (Some Clinic.grey) "09:30"%string
        (Some "p-alice"%string) Clinic.monday ""%string)
   = [mkInsert "p-alice"%string "d-grey"%string 20759 "09:30:00"%string
               ""%string pending] /\
   book_ui
     (handleBookAppointment_deployed Answered "a-1"%string Clinic.sunday_noon
        (db Clinic.opening) (Some Clinic.grey) "09:30"%string
        (Some "p-alice"%string) Clinic.monday ""%string)
   = [Alert failed_message] /\
   book_db
     (handleBookAppointment_deployed Answered "a-1"%string Clinic.sunday_noon
        (db Clinic.opening) (Some Clinic.grey) "09:30"%string
        (Some "p-alice"%string) Clinic.monday ""%string)
   = db Clinic.opening) /\
  In Clinic.booked_row
     (appointments
        (book_db
           (handleBookAppointment Answered "a-1"%string Clinic.sunday_noon
              (db Clinic.opening) (Some Clinic.grey) "09:30"%string
              (Some "p-alice"%string) Clinic.monday ""%string))).
Proof.
  pose proof (@booking_sends_one_insert Answered "a-1"%string Clinic.sunday_noon
                (db Clinic.opening) Clinic.grey "09:30"%string "p-alice"%string
                Clinic.monday ""%string eq_refl) as H.
  cbv zeta in H.
  destruct H as (_ & _ & _ & Hok & _ & _ & _ & Hdeployed).
  split; [exact Hdeployed|].
  apply (Hok eq_refl).
Defined.

(* ===================================================================== *)
(** ** The doctor directory                                              *)
(* ===================================================================== *)

(** C8.  Dr Grey is stored with [is_verified] and [is_available] both
    true, and the directory of the deployed application does not list
    him: the query is answered 42P17 and the list stays empty.  Whatever
    the store holds, the deployed [fetchDoctors] leaves the list as it
    was.  What does hold is the half of the claim that excludes: whether
    or not the query is run, a list that started empty holds no doctor
    with a flag that is not true. *)
Theorem directory_stays_empty :
  (In Clinic.grey (doctors (db Clinic.opening)) /\
   is_verified Clinic.grey = Some true /\ is_available Clinic.grey = Some true /\
   fetchDoctors (under_policies TDoctors Select Answered) (db Clinic.opening)
                "p-bob"%string [] = []) /\
  (forall (net : Transport) (db : Database) (uid : uuid) (shown : list Doctor),
      fetchDoctors (under_policies TDoctors Select net) db uid shown = shown) /\
  (forall (net : Transport) (db : Database) (uid : uuid),
      Forall (fun d => is_verified d = Some true /\ is_available d = Some true)
             (fetchDoctors net db uid [])).
Proof.
  assert (Hflags : forall o, is_true o = true <-> o = Some true).
  { intros [[|]|]; cbn; split; congruence. }
  split; [repeat split; left; reflexivity|]. split.
  - intros net d uid shown. rewrite under_policies_refused by discriminate.
    reflexivity.
  - intros net d uid. unfold fetchDoctors, select_directory, over.
    destruct net; try constructor.
    apply Forall_forall. intros x Hx. apply filter_In in Hx.
    destruct Hx as [_ Hx]. apply andb_true_iff in Hx. destruct Hx as [Hx Ha].
    apply andb_true_iff in Hx. destruct Hx as [_ Hv].
    split; apply Hflags; assumption.
Qed.

(* ===================================================================== *)
(** ** The appointment state machine                                     *)
(* ===================================================================== *)

Lemma cancel_offered_not_terminal now a :
  cancel_offered now a && terminal (status a) = false.
Proof.
  unfold cancel_offered, terminal.
  destruct (status a); cbn; rewrite ?andb_false_r; reflexivity.
Qed.

Lemma doctor_offers_not_terminal a st :
  existsb (Status_eqb st) (doctor_offers a) && terminal (status a) = false.
Proof.
  unfold doctor_offers, terminal.
  destruct (status a); cbn; rewrite ?andb_false_r; reflexivity.
Qed.

Lemma failed_booking_stores_nothing e new_id ts db doctor selectedTime user
      selectedDate notes :
  book_db (handleBookAppointment (Failed e) new_id ts db doctor selectedTime user
                                 selectedDate notes) = db.
Proof.
  unfold handleBookAppointment.
  destruct doctor; [|reflexivity]. destruct user; [|reflexivity].
  destruct (String.eqb selectedTime ""); reflexivity.
Qed.

Lemma failed_cancel_changes_nothing dialog e net_fetch ts db uid appointmentId shown :
  cancelAppointment dialog (Failed e) net_fetch ts db uid appointmentId shown
  = (db, shown).
Proof. destruct dialog; reflexivity. Qed.

Lemma failed_update_changes_nothing e net1 net2 net3 ts now db uid appointmentId
      st shown :
  updateAppointmentStatus (Failed e) net1 net2 net3 ts now db uid appointmentId
                          st shown
  = (db, shown).
Proof. reflexivity. Qed.

(** No action of the deployed application changes the store. *)
Lemma deployed_action_keeps_store w act : db (exec w (as_deployed act)) = db w.
Proof.
  destruct act; cbn [as_deployed exec]; cbv zeta;
    rewrite ?under_policies_refused by discriminate.
  - cbn [db]. apply failed_booking_stores_nothing.
  - reflexivity.
  - rewrite failed_cancel_changes_nothing.
    destruct (_ && _); reflexivity.
  - reflexivity.
  - rewrite failed_update_changes_nothing.
    destruct (doctor_button _ _ _ _ _); reflexivity.
Qed.



Lemma view_is_current_spec w act r s :
  view_is_current w act = true ->
  In r (acting_page w act) -> In s (appointments (db w)) ->
  appointment_pk s = appointment_pk r -> status s = status r.
Proof.
  unfold view_is_current. rewrite forallb_forall. intros H Hr Hs Hpk.
  specialize (H r Hr). rewrite forallb_forall in H. specialize (H s Hs).
  apply String.eqb_eq in Hpk. rewrite Hpk in H. cbn in H.
  apply Status_eqb_eq. exact H.
Qed.

(** An update aimed through a button that a current list shows leaves
    every terminal row as it is. *)
Lemma touch_keeps_terminal w act uid appointmentId st ts (r s : Appointment) :
  view_is_current w act = true ->
  In r (acting_page w act) ->
  appointment_pk r = appointmentId ->
  terminal (status r) = false ->
  In s (appointments (db w)) -> terminal (status s) = true ->
  touch (db w) uid appointmentId st ts s = s.
Proof.
  intros Hview Hr Hid Hlive Hs Hterm.
  destruct (String.eqb (appointment_pk s) appointmentId) eqn:E.
  - apply String.eqb_eq in E.
    assert (status s = status r)
      by (eapply view_is_current_spec; eauto; congruence).
    congruence.
  - apply touch_other. apply String.eqb_neq. exact E.
Qed.

Lemma same_store_same_row w (s s' : Appointment) :
  unique_ids (appointments (db w)) ->
  In s (appointments (db w)) -> In s' (appointments (db w)) ->
  appointment_pk s' = appointment_pk s -> s' = s.
Proof. intros Hu Hs Hs' E. eapply NoDup_map_inj; eauto. Qed.

(** Were the statements run as the row-by-row policies allow, an action
    taken from a list that shows the rows under their stored status would
    leave the status of every cancelled or completed appointment as it
    is; the update names the appointment id only, so a list that is out
    of date gives no such guarantee. *)
Lemma current_view_keeps_terminal_status :
  forall w, reachable w ->
  forall act, view_is_current w act = true ->
  forall s s',
    In s (appointments (db w)) -> terminal (status s) = true ->
    In s' (appointments (db (exec w act))) ->
    appointment_pk s' = appointment_pk s ->
    status s' = status s.
Proof.
  intros w Hreach act Hview s s' Hs Hterm Hs' Hpk.
  pose proof (reachable_unique_ids Hreach) as Huniq.
  assert (Hsame : db (exec w act) = db w -> status s' = status s).
  { intros E. rewrite E in Hs'. f_equal. eapply same_store_same_row; eauto. }
  assert (Hupd : forall uid appointmentId st ts r,
             In r (acting_page w act) -> appointment_pk r = appointmentId ->
             terminal (status r) = false ->
             db (exec w act)
             = set_appointments (db w)
                 (map (touch (db w) uid appointmentId st ts) (appointments (db w))) ->
             status s' = status s).
  { intros uid appointmentId st ts r Hr Hid Hlive E. rewrite E in Hs'.
    cbn [appointments set_appointments] in Hs'.
    apply in_map_iff in Hs'. destruct Hs' as (s0 & <- & Hs0).
    rewrite touch_pk in Hpk.
    assert (s0 = s) by (eapply same_store_same_row; eauto). subst s0.
    rewrite (@touch_keeps_terminal w act uid appointmentId st ts r s
               Hview Hr Hid Hlive Hs Hterm).
    reflexivity. }
  destruct act as [uid doctor selectedDate picked notes new_id ts net
                  |uid net
                  |uid appointmentId f now dialog ts net_update net_fetch
                  |uid now net1 net2 net3
                  |uid appointmentId st ts now net_update net1 net2 net3].
  - destruct (book_cases net new_id ts (db w) doctor (selectedTime_of picked)
                         (Some uid) selectedDate notes)
      as [E|(row & E & Hfresh & _)].
    + apply Hsame. exact E.
    + cbn [exec db] in Hs'. cbv zeta in Hs'. rewrite E in Hs'.
      cbn [appointments set_appointments] in Hs'.
      apply in_app_iff in Hs'. destruct Hs' as [Hold|[<-|[]]].
      * f_equal. eapply same_store_same_row; eauto.
      * exfalso. apply Hfresh. rewrite Hpk. apply in_map. exact Hs.
  - apply Hsame. reflexivity.
  - destruct (click_cancel_cases w uid appointmentId f now dialog ts
                                 net_update net_fetch) as [E|(Hbtn & _ & E)].
    + apply Hsame. exact E.
    + unfold cancel_button in Hbtn. apply existsb_exists in Hbtn.
      destruct Hbtn as (r & Hr & Hg).
      apply andb_true_iff in Hg. destruct Hg as [Hg Hoff].
      apply andb_true_iff in Hg. destruct Hg as [Hid _].
      apply String.eqb_eq in Hid.
      pose proof (cancel_offered_not_terminal now r) as Hnt.
      rewrite Hoff in Hnt. cbn in Hnt.
      eapply Hupd; eauto.
  - apply Hsame. reflexivity.
  - destruct (click_doctor_cases w uid appointmentId st ts now
                                 net_update net1 net2 net3) as [E|(Hbtn & _ & E)].
    + apply Hsame. exact E.
    + unfold doctor_button in Hbtn. apply andb_true_iff in Hbtn.
      destruct Hbtn as [_ Hbtn]. apply existsb_exists in Hbtn.
      destruct Hbtn as (r & Hr & Hg).
      apply andb_true_iff in Hg. destruct Hg as [Hid Hoff].
      apply String.eqb_eq in Hid.
      pose proof (doctor_offers_not_terminal r st) as Hnt.
      rewrite Hoff in Hnt. cbn in Hnt.
      eapply Hupd; eauto.
Qed.


(** Were the update run, the late click would cancel the appointment of
    Monday 09:30 at 10:00 of that Monday. *)
Lemma late_click_would_cancel :
  appointments
    (db (exec Clinic.alice_sees_booking
              (ClickCancel "p-alice"%string "a-1"%string FilterAll
                           Clinic.sunday_noon true
                           Clinic.monday_ten Answered Answered)))
  = [with_status Clinic.booked_row cancelled Clinic.monday_ten].
Proof. vm_compute. reflexivity. Qed.




(* ===================================================================== *)
(** ** The patient's tabs                                                *)
(* ===================================================================== *)

Lemma filter_split_length (A : Type) (p q : A -> bool) (l : list A) :
  (forall a, q a = negb (p a)) ->
  (List.length (filter p l) + List.length (filter q l) = List.length l)%nat.
Proof.
  intros H. induction l as [|a l IH]; [reflexivity|].
  cbn [filter]. rewrite (H a). destruct (p a); cbn [negb List.length]; lia.
Qed.

(** X1.  Every appointment of the patient's list is under exactly one of
    the tabs Upcoming and Past: the Past filter is the negation of the
    Upcoming filter, so the two tabs split the list, and the All tab shows
    the whole list. *)
Theorem tabs_split_the_list :
  forall (now : Z) (appointments : list Appointment),
    (forall apt, passes_filter FilterPast now apt
                 = negb (passes_filter FilterUpcoming now apt)) /\
    (List.length (filter (passes_filter FilterUpcoming now) appointments) +
     List.length (filter (passes_filter FilterPast now) appointments)
     = List.length appointments)%nat /\
    filter (passes_filter FilterAll now) appointments = appointments.
Proof.
  intros now l.
  assert (H : forall apt, passes_filter FilterPast now apt
                          = negb (passes_filter FilterUpcoming now apt)).
  { intros apt. unfold passes_filter. cbv zeta.
    destruct (DateFns.isPast now (appointment_moment apt)), (status apt);
      reflexivity. }
  split; [exact H|]. split.
  - apply filter_split_length. exact H.
  - induction l as [|a l IH]; [reflexivity|]. cbn. rewrite IH. reflexivity.
Qed.

(** X2.  The Cancel button is never drawn under the Past tab, and under
    the Upcoming tab it is drawn for the same appointments as under the
    All tab. *)
Theorem cancel_button_tabs :
  forall (now : Z) (appointmentId : uuid) (shown : list Appointment),
    cancel_button FilterPast now appointmentId shown = false /\
    cancel_button FilterUpcoming now appointmentId shown
    = cancel_button FilterAll now appointmentId shown.
Proof.
  intros now appointmentId shown. unfold cancel_button. split.
  - induction shown as [|a l IH]; [reflexivity|]. cbn [existsb]. rewrite IH.
    rewrite orb_false_r. unfold passes_filter, cancel_offered. cbv zeta.
    destruct (DateFns.isPast now (appointment_moment a)), (status a);
      cbn; rewrite ?andb_false_r; reflexivity.
  - induction shown as [|a l IH]; [reflexivity|]. cbn [existsb]. rewrite IH.
    f_equal. unfold passes_filter, cancel_offered. cbv zeta.
    destruct (DateFns.isPast now (appointment_moment a)), (status a);
      cbn; rewrite ?andb_false_r; reflexivity.
Qed.

(* ===================================================================== *)
(** ** The application behind the migration's policies                   *)
(* ===================================================================== *)

(** X3.  Every statement a client session can send on [doctors],
    [doctor_schedules] and [appointments], and every SELECT on [profiles],
    is turned down while its policies are expanded: the expansion reaches
    the policy of [profiles] that reads [profiles].  The statement is not
    run, and the client gets 42P17 when the answer arrives. *)
Theorem policies_refuse_every_statement :
  forall (t : Table) (c : Command),
    (t = TProfiles -> c = Select) ->
    refused t c = true /\
    In TProfiles (policy_reads TProfiles Select) /\
    (forall net, under_policies t c net = Failed (client_error net)) /\
    under_policies t c Answered = Failed "42P17".
Proof.
  intros t c H. split; [apply refused_statements; exact H|].
  split; [left; reflexivity|].
  split; [intros net|]; apply under_policies_refused; exact H.
Qed.

Lemma policies_refuse_every_statement_witness :
  refused TAppointments Insert = true /\
  under_policies TAppointments Insert (Unanswered "timeout") = Failed "timeout" /\
  under_policies TAppointments Insert Answered = Failed "42P17".
Proof.
  destruct (@policies_refuse_every_statement TAppointments Insert
              ltac:(discriminate)) as (H1 & _ & H2 & H3).
  split; [exact H1|]. split; [exact (H2 (Unanswered "timeout"))|exact H3].
Defined.

Lemma page_of_show_same uid' uid pages :
  page_of uid' (show uid (page_of uid pages) pages) = page_of uid' pages.
Proof.
  unfold show, page_of at 1. cbn [find fst snd].
  destruct (String.eqb uid uid') eqn:E; [|reflexivity].
  apply String.eqb_eq in E. subst uid'. reflexivity.
Qed.

Lemma deployed_action_keeps_pages w act uid :
  page_of uid (patient_pages (exec w (as_deployed act)))
  = page_of uid (patient_pages w) /\
  page_of uid (doctor_pages (exec w (as_deployed act)))
  = page_of uid (doctor_pages w).
Proof.
  destruct act; cbn [as_deployed exec]; cbv zeta;
    rewrite ?under_policies_refused by discriminate.
  - split; reflexivity.
  - cbn [patient_pages doctor_pages]. split; [|reflexivity].
    apply page_of_show_same.
  - rewrite failed_cancel_changes_nothing.
    destruct (_ && _); cbn [patient_pages doctor_pages];
      (split; [|reflexivity]); [apply page_of_show_same|reflexivity].
  - cbn [patient_pages doctor_pages]. split; [reflexivity|].
    apply page_of_show_same.
  - rewrite failed_update_changes_nothing.
    destruct (doctor_button _ _ _ _ _); cbn [patient_pages doctor_pages];
      (split; [reflexivity|]); [apply page_of_show_same|reflexivity].
Qed.

(** X6.  With the policies of the migration in force nothing loads and
    nothing is stored.  [fetchAppointments] leaves the patient's list as
    it was, [fetchDashboardData] leaves the dashboard list and the four
    numbers as they were, whatever the transport does; and after any
    series of bookings, cancellations, status changes and refreshes the
    store and every user's two lists are what they were before it. *)
Theorem nothing_loads_and_nothing_is_stored :
  (forall (net : Transport) (db : Database) (uid : uuid) (shown : list Appointment),
      fetchAppointments (under_policies TAppointments Select net) db uid shown
      = shown) /\
  (forall (net1 net2 net3 : Transport) (db : Database) (uid : uuid) (now : Z)
          (shown : list Appointment) (stats : Stats),
      fetchDashboardData (under_policies TDoctors Select net1)
                         (under_policies TAppointments Select net2)
                         (under_policies TAppointments Select net3)
                         db uid now shown = shown /\
      fetchDashboardStats (under_policies TDoctors Select net1)
                          (under_policies TAppointments Select net2)
                          (under_policies TAppointments Select net3)
                          db uid now stats = stats) /\
  (forall (acts : list Action) (w : World) (uid : uuid),
      db (run (map as_deployed acts) w) = db w /\
      page_of uid (patient_pages (run (map as_deployed acts) w))
      = page_of uid (patient_pages w) /\
      page_of uid (doctor_pages (run (map as_deployed acts) w))
      = page_of uid (doctor_pages w)).
Proof.
  split; [|split].
  - intros. rewrite under_policies_refused by discriminate. reflexivity.
  - intros. rewrite !under_policies_refused by discriminate.
    split; reflexivity.
  - induction acts as [|act acts IH]; intros w uid; [repeat split|].
    cbn [map run fold_left].
    destruct (IH (exec w (as_deployed act)) uid) as (E1 & E2 & E3).
    destruct (deployed_action_keeps_pages w act uid) as [P1 P2].
    unfold run in *. rewrite E1, E2, E3, P1, P2, deployed_action_keeps_store.
    repeat split.
Qed.

(* ===================================================================== *)
(** ** The dashboard's numbers                                           *)
(* ===================================================================== *)

Lemma filter_length_le (A : Type) (p : A -> bool) (l : list A) :
  (List.length (filter p l) <= List.length l)%nat.
Proof. induction l as [|a l IH]; cbn; [lia|]. destruct (p a); cbn; lia. Qed.

Lemma filter_length_mono (A : Type) (p q : A -> bool) (l : list A) :
  (forall a, p a = true -> q a = true) ->
  (List.length (filter p l) <= List.length (filter q l))%nat.
Proof.
  intros H. induction l as [|a l IH]; cbn; [lia|].
  destruct (p a) eqn:Ep.
  - rewrite (H a Ep). cbn. lia.
  - destruct (q a); cbn; lia.
Qed.

Lemma week_ahead now :
  DateFns.format_date (addDays now 7) = DateFns.format_date now + 7.
Proof.
  unfold DateFns.format_date, DateFns.dayNumber, addDays, DateFns.msDay.
  rewrite Z.div_add by lia. reflexivity.
Qed.

(** X8.  The four numbers of the dashboard are consistent, whatever
    rows they are computed from: the pending count and the this-week
    count are at most the total, and every appointment counted for today
    is counted for this week. *)
Theorem dashboard_stats_consistent :
  forall (now : Z) (allAppointments : list Appointment),
    let s := calculatedStats now allAppointments in
    (pending_appointments s <= total_appointments s)%nat /\
    (todays_appointments s <= this_week_appointments s)%nat /\
    (this_week_appointments s <= total_appointments s)%nat.
Proof.
  intros now l. cbv zeta. unfold calculatedStats. cbv zeta.
  cbn [pending_appointments total_appointments todays_appointments
       this_week_appointments].
  split; [apply filter_length_le|]. split; [|apply filter_length_le].
  apply filter_length_mono. intros a Ha. apply Z.eqb_eq in Ha.
  rewrite week_ahead, Ha. apply andb_true_iff.
  split; apply Z.leb_le; lia.
Qed.


(* ===================================================================== *)
(** ** The booking page: dates and doctor                                *)
(* ===================================================================== *)

Lemma day_of_addDays now i :
  DateFns.dayNumber (addDays now i) = DateFns.dayNumber now + i.
Proof.
  unfold DateFns.dayNumber, addDays, DateFns.msDay.
  rewrite Z.div_add by lia. reflexivity.
Qed.

Lemma filter_map_length (A B : Type) (f : A -> B) (p : B -> bool) (l : list A) :
  List.length (filter p (map f l)) = List.length (filter (fun x => p (f x)) l).
Proof.
  induction l as [|a l IH]; [reflexivity|]. cbn.
  destruct (p (f a)); cbn; rewrite IH; reflexivity.
Qed.

Lemma two_of_fourteen r q :
  0 <= r < 7 -> 0 <= q < 7 ->
  List.length (filter (fun i => (r + Z.of_nat i) mod 7 =? q) (seq 0 14)) = 2%nat.
Proof.
  intros Hr Hq.
  assert (Er : r = 0 \/ r = 1 \/ r = 2 \/ r = 3 \/ r = 4 \/ r = 5 \/ r = 6) by lia.
  assert (Eq : q = 0 \/ q = 1 \/ q = 2 \/ q = 3 \/ q = 4 \/ q = 5 \/ q = 6) by lia.
  destruct Er as [->|[->|[->|[->|[->|[->| ->]]]]]];
    destruct Eq as [->|[->|[->|[->|[->|[->| ->]]]]]];
    vm_compute; reflexivity.
Qed.

(** X9.  The booking page offers fourteen dates: today and the thirteen
    days after it, one per day and in order, so none is in the past; and
    each day of the week is offered exactly twice. *)
Theorem fourteen_dates_from_today :
  forall (now : Z),
    map DateFns.format_date (dates now)
    = map (fun i => DateFns.format_date now + Z.of_nat i) (seq 0 14) /\
    (forall k : Z,
        List.length (filter (fun d => DateFns.getDay d =? k mod 7) (dates now))
        = 2%nat).
Proof.
  intros now. unfold dates. split.
  - rewrite map_map. apply map_ext. intros i. apply day_of_addDays.
  - intros k. rewrite filter_map_length.
    rewrite (filter_ext _ (fun i => (((DateFns.dayNumber now + 4) mod 7)
                                     + Z.of_nat i) mod 7 =? k mod 7)).
    + apply two_of_fourteen; apply Z.mod_pos_bound; lia.
    + intros i. unfold DateFns.getDay. rewrite day_of_addDays.
      rewrite Zplus_mod_idemp_l. f_equal. f_equal. lia.
Qed.

(** X10.  On the booking page of the deployed application the doctor
    is never loaded, whatever the store holds: the request is turned down
    and the state stays [null] ("Doctor not found").  With that state the
    slot generator is not run, so the slots shown stay as they were, and
    [handleBookAppointment] returns at its guard: no insert is sent,
    nothing is shown and the store is untouched. *)
Theorem booking_page_finds_no_doctor :
  forall (net : Transport) (db : Database) (uid doctorId : uuid),
    let doctor :=
      fetchDoctor (under_policies TDoctors Select net) db uid doctorId None in
    doctor = None /\
    (forall net1 net2 selectedDate now prev,
        timeSlots_after prev
          (generateTimeSlots net1 net2 db uid doctor selectedDate now) = prev) /\
    (forall net' new_id ts selectedTime user selectedDate notes,
        let r := handleBookAppointment net' new_id ts db doctor selectedTime user
                                       selectedDate notes in
        book_requests r = [] /\ book_ui r = [] /\ book_db r = db).
Proof.
  intros net d uid doctorId doctor.
  assert (E : doctor = None).
  { subst doctor. rewrite under_policies_refused by discriminate. reflexivity. }
  rewrite E. repeat split.
Qed.

(* ===================================================================== *)
(** ** Routes                                                            *)
(* ===================================================================== *)

(** X11.  A screen is drawn only for a signed-in user whose profile is
    loaded and has the role the screen is registered for: the doctors
    list, the booking page and the patient's appointments for a patient,
    the dashboard for a doctor. *)
Theorem screens_are_role_gated :
  forall (auth : Auth) (m : RouteMatch) (s : Screen),
    App auth m = ScreenView s ->
    auth_loading auth = false /\
    (exists u, auth_user auth = Some u) /\
    (exists p, auth_profile auth = Some p /\ role p = required_role s).
Proof.
  intros auth m s H.
  destruct m; cbn [App] in H;
    unfold Home, ProtectedRoute in H;
    destruct (auth_loading auth); try discriminate;
    destruct (auth_user auth) as [u|]; try discriminate;
    destruct (auth_profile auth) as [p|]; try discriminate;
    destruct (role p) eqn:Er; try discriminate;
    cbn in H; injection H as <-;
    (split; [reflexivity|]; split; [eexists; reflexivity|];
     eexists; split; [reflexivity|exact Er]).
Qed.

Lemma screens_are_role_gated_witness :
  auth_loading (mkAuth false (Some "u-grey"%string) (Some Clinic.grey_profile))
  = false /\
  (exists u, auth_user (mkAuth false (Some "u-grey"%string)
                               (Some Clinic.grey_profile)) = Some u) /\
  (exists p, auth_profile (mkAuth false (Some "u-grey"%string)
                                  (Some Clinic.grey_profile)) = Some p /\
             role p = required_role DoctorDashboardScreen).
Proof.
  apply (@screens_are_role_gated
           (mkAuth false (Some "u-grey"%string) (Some Clinic.grey_profile))
           RouteDoctorDashboard DoctorDashboardScreen).
  reflexivity.
Defined.

Ltac follow_routes Hl Hu Hp Hr :=
  repeat (cbn [settle App route_of]; unfold Home, ProtectedRoute;
          rewrite ?Hl, ?Hu, ?Hp, ?Hr; cbn [negb Role_eqb]).

Lemma admin_bounces n auth p :
  auth_loading auth = false -> auth_profile auth = Some p -> role p = RoleAdmin ->
  settle n auth RouteHome = None /\ settle n auth RouteCatchAll = None.
Proof.
  intros Hl Hp Hr.
  assert (Hhome : App auth RouteHome = NavigateView HrefAdminDashboard).
  { cbn [App]. unfold Home. rewrite Hl, Hp, Hr. reflexivity. }
  induction n as [|n [IH1 IH2]].
  - cbn [settle]. rewrite Hhome. split; reflexivity.
  - cbn [settle]. rewrite Hhome. cbn [App route_of]. split; assumption.
Qed.

(** X12.  With the session loaded, following the redirects from any
    route ends, after at most two of them, on a view for a patient and for
    a doctor; a path with no route of its own brings a patient to the
    doctors list and a doctor to the dashboard.  For an administrator the
    start page and every path with no route of its own redirect to each
    other without end, and no route ever draws a screen. *)
Theorem redirects_settle_except_for_admin :
  forall (auth : Auth) (u : uuid) (p : Profile),
    auth_loading auth = false ->
    auth_user auth = Some u ->
    auth_profile auth = Some p ->
    match role p with
    | RolePatient =>
        (forall m, exists v, settle 2 auth m = Some v) /\
        settle 2 auth RouteCatchAll = Some (ScreenView DoctorsListScreen)
    | RoleDoctor =>
        (forall m, exists v, settle 2 auth m = Some v) /\
        settle 2 auth RouteCatchAll = Some (ScreenView DoctorDashboardScreen)
    | RoleAdmin =>
        (forall n, settle n auth RouteHome = None /\
                   settle n auth RouteCatchAll = None) /\
        (forall n m s, settle n auth m <> Some (ScreenView s))
    end.
Proof.
  intros auth u p Hl Hu Hp.
  destruct (role p) eqn:Hr.
  - split.
    + intros m. destruct m; follow_routes Hl Hu Hp Hr; eexists; reflexivity.
    + follow_routes Hl Hu Hp Hr. reflexivity.
  - split.
    + intros m. destruct m; follow_routes Hl Hu Hp Hr; eexists; reflexivity.
    + follow_routes Hl Hu Hp Hr. reflexivity.
  - split.
    + intros n. apply (admin_bounces n auth Hl Hp Hr).
    + intros n m s.
      destruct (admin_bounces n auth Hl Hp Hr) as [H1 H2].
      destruct m; try (rewrite ?H1, ?H2; discriminate);
        destruct n; follow_routes Hl Hu Hp Hr; discriminate.
Qed.

Lemma redirects_settle_except_for_admin_witness :
  settle 2 (mkAuth false (Some "u-grey"%string) (Some Clinic.grey_profile))
         RouteCatchAll
  = Some (ScreenView DoctorDashboardScreen).
Proof.
  apply (@redirects_settle_except_for_admin
           (mkAuth false (Some "u-grey"%string) (Some Clinic.grey_profile))
           "u-grey"%string Clinic.grey_profile eq_refl eq_refl eq_refl).
Defined.



(* ===================================================================== *)
(** ** The doctor directory: search and menu                             *)
(* ===================================================================== *)

Lemma prefix_empty s : String.prefix "" s = true.
Proof. apply String.prefix_correct. destruct s; reflexivity. Qed.

Lemma prefix_refl s : String.prefix s s = true.
Proof.
  apply String.prefix_correct. induction s as [|c s IH]; [reflexivity|].
  cbn. rewrite IH. reflexivity.
Qed.

Lemma includes_empty s : includes s "" = true.
Proof. destruct s; cbn [includes]; rewrite prefix_empty; reflexivity. Qed.

Lemma includes_refl s : includes s s = true.
Proof. destruct s; cbn [includes]; rewrite prefix_refl; reflexivity. Qed.

Lemma unique_values_in seen xs s :
  In s (unique_values seen xs) <-> In s xs /\ ~ In s seen.
Proof.
  revert seen. induction xs as [|x xs IH]; intros seen; cbn.
  - tauto.
  - destruct (existsb (String.eqb x) seen) eqn:E.
    + apply existsb_exists in E. destruct E as (y & Hy & E).
      apply String.eqb_eq in E. subst y. rewrite IH. split.
      * intros [H1 H2]. auto.
      * intros [[->|H1] H2]; [contradiction|auto].
    + assert (Hx : ~ In x seen).
      { intros Hx. assert (existsb (String.eqb x) seen = true); [|congruence].
        apply existsb_exists. exists x. split; [exact Hx|apply String.eqb_refl]. }
      cbn. rewrite IH. cbn. split.
      * intros [<-|[H1 H2]]; [auto|]. split; [auto|]. intros H. apply H2. auto.
      * intros [[<-|H1] H2]; [auto|].
        destruct (string_dec x s) as [->|Hne]; [auto|].
        right. split; [exact H1|]. intros [H|H]; [contradiction|contradiction].
Qed.

Lemma unique_values_nodup seen xs : NoDup (unique_values seen xs).
Proof.
  revert seen. induction xs as [|x xs IH]; intros seen; cbn; [constructor|].
  destruct (existsb (String.eqb x) seen); [apply IH|].
  constructor; [|apply IH].
  rewrite unique_values_in. intros [_ H]. apply H. left. reflexivity.
Qed.

Lemma in_uniqueSpecializations data s :
  In s (uniqueSpecializations data) <->
  exists d, In d data /\ specialization (listed d) = s.
Proof.
  unfold uniqueSpecializations. rewrite unique_values_in, in_map_iff. cbn. split.
  - intros [(d & E & Hd) _]. exists d. auto.
  - intros (d & Hd & E). split; [exists d; auto|tauto].
Qed.

(** X14.  The specialization menu lists each specialization of the
    fetched doctors exactly once and nothing else. *)
Theorem specialization_menu_is_exact :
  forall (data : list DirectoryRow),
    NoDup (uniqueSpecializations data) /\
    (forall s, In s (uniqueSpecializations data) <->
               exists d, In d data /\ specialization (listed d) = s).
Proof.
  intros data. split.
  - apply unique_values_nodup.
  - intros s. apply in_uniqueSpecializations.
Qed.

Section DoctorsSearchFacts.

Variable toLowerCase : string -> string.

(** The lower case of the empty text is the empty text. *)
Hypothesis lower_empty : toLowerCase "" = ""%string.

(** X15.  In the doctor directory, with [toLowerCase] sending the empty
    text to itself: with the search box empty and no specialization
    chosen every fetched doctor is shown (what Clear Filters gives); every
    entry of the specialization menu, chosen with an empty search box,
    shows at least one doctor; and typing a doctor's specialization as it
    is stored into the search box always shows that doctor. *)
Theorem directory_filters :
  forall (doctors : list DirectoryRow),
    filteredDoctors toLowerCase "" "" doctors = doctors /\
    (forall s, In s (uniqueSpecializations doctors) ->
               filteredDoctors toLowerCase "" s doctors <> []) /\
    (forall d, In d doctors ->
               In d (filteredDoctors toLowerCase (specialization (listed d)) ""
                                     doctors)).
Proof.
  intros doctors.
  assert (Hsearch : forall d, matchesSearch toLowerCase "" d = true).
  { intros d. unfold matchesSearch. rewrite lower_empty, includes_empty.
    apply orb_true_r. }
  split; [|split].
  - unfold filteredDoctors.
    induction doctors as [|d l IH]; [reflexivity|]. cbn [filter].
    rewrite Hsearch, IH. reflexivity.
  - intros s Hs. apply in_uniqueSpecializations in Hs.
    destruct Hs as (d & Hd & E).
    assert (Hin : In d (filteredDoctors toLowerCase "" s doctors)).
    { unfold filteredDoctors. apply filter_In. split; [exact Hd|].
      rewrite Hsearch. unfold matchesSpecialization.
      rewrite E, String.eqb_refl. apply orb_true_r. }
    intros Hnil. rewrite Hnil in Hin. exact Hin.
  - intros d Hd. unfold filteredDoctors. apply filter_In. split; [exact Hd|].
    unfold matchesSearch, matchesSpecialization.
    rewrite includes_refl, orb_true_r. reflexivity.
Qed.

End DoctorsSearchFacts.

Lemma directory_filters_witness :
  filteredDoctors lower_ascii "" ""
                  [mkDirectoryRow Clinic.grey (Some Clinic.grey_profile)]
  = [mkDirectoryRow Clinic.grey (Some Clinic.grey_profile)].
Proof.
  apply (@directory_filters lower_ascii eq_refl
           [mkDirectoryRow Clinic.grey (Some Clinic.grey_profile)]).
Defined.

(* ===================================================================== *)
(** ** What the store keeps                                              *)
(* ===================================================================== *)

Lemma same_but_status_refl a : same_but_status a a.
Proof. unfold same_but_status. repeat split; reflexivity. Qed.

Lemma same_but_status_trans a b c :
  same_but_status a b -> same_but_status b c -> same_but_status a c.
Proof. unfold same_but_status. intuition congruence. Qed.

Lemma continues_refl l : continues l l.
Proof.
  induction l as [|a l IH]; cbn; [trivial|].
  split; [apply same_but_status_refl|exact IH].
Qed.

Lemma continues_app l extra : continues l (l ++ extra).
Proof.
  induction l as [|a l IH]; cbn; [trivial|].
  split; [apply same_but_status_refl|exact IH].
Qed.

Lemma continues_map (f : Appointment -> Appointment) l :
  (forall a, same_but_status a (f a)) -> continues l (map f l).
Proof.
  intros H. induction l as [|a l IH]; cbn; [trivial|]. split; [apply H|exact IH].
Qed.

Lemma continues_trans l1 l2 l3 :
  continues l1 l2 -> continues l2 l3 -> continues l1 l3.
Proof.
  revert l2 l3. induction l1 as [|a l1 IH]; intros l2 l3 H12 H23; cbn; [trivial|].
  destruct l2 as [|b l2]; [contradiction|]. destruct H12 as [Hab H12].
  destruct l3 as [|c l3]; [contradiction|]. destruct H23 as [Hbc H23].
  split; [eapply same_but_status_trans; eassumption|eapply IH; eassumption].
Qed.

Lemma step_continues db db' :
  db_step db db' -> continues (appointments db) (appointments db').
Proof.
  intros [->|row -> _ _|uid id st ts ->]; cbn [appointments set_appointments].
  - apply continues_refl.
  - apply continues_app.
  - apply continues_map. intros a. apply touch_same_but_status.
Qed.

(** X16.  No sequence of exposed actions deletes an appointment, moves
    it to another patient, doctor, date or time, or changes its notes:
    after any run, the appointments stored before are still there, in the
    same order, each with the same id, patient, doctor, date, time, notes
    and creation stamp; only status and update stamp may differ, and new
    rows come after them. *)
Theorem appointments_are_never_lost :
  forall (acts : list Action) (w : World),
    continues (appointments (db w)) (appointments (db (run acts w))) /\
    (List.length (appointments (db w))
     <= List.length (appointments (db (run acts w))))%nat.
Proof.
  assert (Hrun : forall acts w,
             continues (appointments (db w)) (appointments (db (run acts w)))).
  { induction acts as [|act acts IH]; intros w; [apply continues_refl|].
    cbn [run fold_left]. eapply continues_trans; [|apply IH].
    apply step_continues, exec_step. }
  assert (Hlen : forall l l', continues l l' ->
                              (List.length l <= List.length l')%nat).
  { induction l as [|a l IH]; intros l' H; cbn; [lia|].
    destruct l' as [|b l']; [contradiction|]. destruct H as [_ H].
    specialize (IH l' H). cbn. lia. }
  intros acts w. split; [apply Hrun|apply Hlen, Hrun].
Qed.

Lemma seconds_read_back_all :
  forallb seconds_read_back (map Z.of_nat (seq 0 1440)) = true.
Proof. vm_compute. reflexivity. Qed.

Lemma parse_booked_time currentTime :
  DateFns.parse_time (DateFns.format_HHmm currentTime ++ ":00")%string
  = Some (minute_of_day currentTime * DateFns.msMinute).
Proof.
  rewrite DateFnsFacts.format_HHmm_label.
  pose proof (DateFnsFacts.minute_of_day_range currentTime) as Hm.
  pose proof seconds_read_back_all as Hall. rewrite forallb_forall in Hall.
  specialize (Hall (minute_of_day currentTime)). unfold seconds_read_back in Hall.
  assert (Hin : In (minute_of_day currentTime) (map Z.of_nat (seq 0 1440))).
  { apply in_map_iff. exists (Z.to_nat (minute_of_day currentTime)).
    split; [lia|]. apply in_seq. lia. }
  specialize (Hall Hin).
  destruct (DateFns.parse_time (label (minute_of_day currentTime) ++ ":00")%string)
    as [v|]; [|discriminate].
  apply Z.eqb_eq in Hall. congruence.
Qed.

(** The time a booking from the page can write. *)
Lemma book_picked_cases net new_id ts db doctor picked uid selectedDate notes :
  let r := handleBookAppointment net new_id ts db doctor (selectedTime_of picked)
                                 (Some uid) selectedDate notes in
  book_db r = db \/
  exists currentTime row,
    appointment_time row = (DateFns.format_HHmm currentTime ++ ":00")%string /\
    book_db r = set_appointments db (appointments db ++ [row]).
Proof.
  cbv zeta.
  destruct doctor as [doctor|]; [|left; reflexivity].
  destruct picked as [currentTime|]; cbn [selectedTime_of];
    [|left; reflexivity].
  destruct (String.eqb (DateFns.format_HHmm currentTime) "") eqn:Hsel;
    [unfold handleBookAppointment; rewrite Hsel; left; reflexivity|].
  rewrite (@handleBookAppointment_sends net new_id ts db doctor
             (DateFns.format_HHmm currentTime) uid selectedDate notes Hsel).
  cbn [book_db].
  match goal with |- context [insert_appointment ?n ?i ?t ?d ?u ?p] =>
    destruct (insert_appointment_cases n i t d u p)
      as [[e E]|(db' & Hrow & [[E _]|(e & E & _)])] end;
    rewrite E; cbn [fst]; [left; reflexivity| |];
    apply insert_row_cases in Hrow; destruct Hrow as [Hrow _];
    right; do 2 eexists; (split; [|exact Hrow]); reflexivity.
Qed.

Lemma touch_on_the_minute db uid appointmentId st ts a :
  on_the_minute a -> on_the_minute (touch db uid appointmentId st ts a).
Proof.
  intros [t Ht]. exists t.
  destruct (touch_same_but_status db uid appointmentId st ts a)
    as (_ & _ & _ & _ & Etime & _).
  congruence.
Qed.

Lemma exec_on_the_minute w act :
  Forall on_the_minute (appointments (db w)) ->
  Forall on_the_minute (appointments (db (exec w act))).
Proof.
  intros H.
  assert (Hupd : forall uid appointmentId st ts,
             Forall on_the_minute
                    (map (touch (db w) uid appointmentId st ts)
                         (appointments (db w)))).
  { intros uid appointmentId st ts. apply Forall_forall. intros a Ha.
    apply in_map_iff in Ha. destruct Ha as (a0 & <- & Ha0).
    apply touch_on_the_minute. rewrite Forall_forall in H. apply H. exact Ha0. }
  destruct act as [uid doctor selectedDate picked notes new_id ts net
                  |uid net
                  |uid appointmentId f now dialog ts net_update net_fetch
                  |uid now net1 net2 net3
                  |uid appointmentId st ts now net_update net1 net2 net3].
  - destruct (book_picked_cases net new_id ts (db w) doctor picked uid
                                selectedDate notes)
      as [E|(t & row & Ht & E)]; cbn [exec db]; cbv zeta; rewrite E.
    + exact H.
    + cbn [appointments set_appointments]. apply Forall_app. split; [exact H|].
      constructor; [|constructor]. exists t. exact Ht.
  - exact H.
  - destruct (click_cancel_cases w uid appointmentId f now dialog ts
                                 net_update net_fetch) as [E|(_ & _ & E)];
      rewrite E; [exact H|apply Hupd].
  - exact H.
  - destruct (click_doctor_cases w uid appointmentId st ts now
                                 net_update net1 net2 net3) as [E|(_ & _ & E)];
      rewrite E; [exact H|apply Hupd].
Qed.

(** X17.  In every state the system can reach, the time of every stored
    appointment is the label of a slot followed by [":00"]: it is a whole
    minute in the shape the generator compares against, and the date and
    time of the appointment always read as a valid moment, at that minute
    of its date. *)
Theorem stored_times_are_slot_labels :
  forall w, reachable w ->
    Forall (fun a =>
              exists currentTime,
                appointment_time a
                = (DateFns.format_HHmm currentTime ++ ":00")%string /\
                appointment_moment a
                = Some (appointment_date a * DateFns.msDay
                        + minute_of_day currentTime * DateFns.msMinute))
           (appointments (db w)).
Proof.
  intros w Hreach.
  assert (H : Forall on_the_minute (appointments (db w))).
  { induction Hreach as [ps ds ss|w act _ IH] using reachable_ind.
    - constructor.
    - apply exec_on_the_minute. exact IH. }
  apply Forall_forall. intros a Ha. rewrite Forall_forall in H.
  destruct (H a Ha) as [t Ht]. exists t. split; [exact Ht|].
  unfold appointment_moment, DateFns.parseISO.
  rewrite Ht, parse_booked_time. reflexivity.
Qed.

Lemma stored_times_are_slot_labels_witness :
  Forall (fun a =>
            exists currentTime,
              appointment_time a
              = (DateFns.format_HHmm currentTime ++ ":00")%string /\
              appointment_moment a
              = Some (appointment_date a * DateFns.msDay
                      + minute_of_day currentTime * DateFns.msMinute))
         (appointments (db Clinic.grey_confirmed)).
Proof.
  apply (@stored_times_are_slot_labels Clinic.grey_confirmed).
  do 4 eexists. reflexivity.
Defined.

(* ===================================================================== *)
(** ** More on slots, bookings and the dashboard                         *)
(* ===================================================================== *)

(** X18.  For a schedule entry that starts before it ends, the loop
    appends at least the slot at the start, one slot every thirty minutes
    after it, and the last slot it appends starts less than thirty minutes
    before the end or exactly thirty minutes before it: the entry's end is
    never checked against the end of a slot, so the last half hour
    overruns the window whenever the window is not a whole number of half
    hours long. *)
Theorem last_slot_reaches_the_end :
  forall (selectedDate now : Z) (bookedTimes : list string)
         (slots : list TimeSlot) (schedule : Schedule) (s e : Z),
    DateFns.parse_time (start_time schedule) = Some s ->
    DateFns.parse_time (end_time schedule) = Some e ->
    s < e ->
    exists n : nat,
      forEach_body selectedDate now bookedTimes slots schedule
      = slots ++ map (fun k => slot_at selectedDate now bookedTimes
                                       (s + Z.of_nat k * (30 * 60000)))
                     (seq 0 (S n)) /\
      s + Z.of_nat n * (30 * 60000) < e <= s + Z.of_nat (S n) * (30 * 60000).
Proof.
  intros selectedDate now bookedTimes slots schedule s e Hs He Hlt.
  assert (Hpos : (0 < slot_count e s)%nat).
  { apply slot_count_spec. cbn. lia. }
  destruct (slot_count e s) as [|n] eqn:Hn; [lia|].
  exists n. split.
  - rewrite forEach_body_entry. unfold entry_times. rewrite Hs, He, Hn.
    rewrite steps_from_seq, map_map. reflexivity.
  - split.
    + pose proof (proj1 (slot_count_spec e s n) ltac:(lia)) as H. exact H.
    + destruct (Z_lt_dec (s + Z.of_nat (S n) * (30 * 60000)) e) as [H|H]; [|lia].
      apply (slot_count_spec e s (S n)) in H. lia.
Qed.

(** The window 09:00:00.5 to 09:45:00: the slots 09:00 and 09:30, the
    second one running to 10:00:00.5. *)
Lemma last_slot_reaches_the_end_witness :
  exists n : nat,
    forEach_body Clinic.monday Clinic.sunday_noon [] [] Clinic.odd_window
    = [] ++ map (fun k => slot_at Clinic.monday Clinic.sunday_noon []
                                  (32400500 + Z.of_nat k * (30 * 60000)))
                (seq 0 (S n)) /\
    32400500 + Z.of_nat n * (30 * 60000) < 35100000
    <= 32400500 + Z.of_nat (S n) * (30 * 60000).
Proof.
  apply (@last_slot_reaches_the_end Clinic.monday Clinic.sunday_noon [] []
           Clinic.odd_window 32400500 35100000);
    [reflexivity|reflexivity|lia].
Defined.

(** X19.  Whatever the state of the form, [handleBookAppointment] sends at
    most one insert and shows exactly one outcome for each insert it
    sends: either it sends nothing, shows nothing and leaves the database
    as it was (no doctor loaded, nobody signed in, or no time selected),
    or it sends one insert and shows one message. *)
Theorem booking_feedback_matches_requests :
  forall (net : Transport) (new_id : uuid) (ts : Z) (db : Database)
         (doctor : option Doctor) (selectedTime : string) (user : option uuid)
         (selectedDate : Z) (notes : string),
    let r := handleBookAppointment net new_id ts db doctor selectedTime user
                                   selectedDate notes in
    (book_requests r = [] /\ book_ui r = [] /\ book_db r = db /\
     (doctor = None \/ user = None \/ selectedTime = ""%string)) \/
    (exists p effect, book_requests r = [p] /\ book_ui r = [effect] /\
                      doctor <> None /\ user <> None /\
                      selectedTime <> ""%string).
Proof.
  intros net new_id ts d doctor selectedTime user selectedDate notes r. subst r.
  unfold handleBookAppointment.
  destruct doctor as [doctor|]; [|left; auto 6].
  destruct user as [user|]; [|left; auto 6].
  destruct (String.eqb selectedTime "") eqn:E.
  - apply String.eqb_eq in E. left. auto 6.
  - apply String.eqb_neq in E. right. cbv zeta.
    match goal with |- context [insert_appointment ?n ?i ?t ?d ?u ?p] =>
      destruct (insert_appointment n i t d u p) as [db' [u0|e]] end;
      do 2 eexists; repeat split; try reflexivity; try discriminate; exact E.
Qed.

